(** * indiekit-endpoint-cv: storage layer, interests migration and preset matcher

    A shallow embedding of
      - [lib/storage/cv.js]            (profile document store and repositories),
      - [lib/storage/cvPageConfig.js]  (page configuration store),
      - [lib/controllers/pageBuilder.js] (preset matcher, save, applyPreset,
                                        saveIdentity),
      - [lib/controllers/api.js]       (the two public JSON endpoints),
      - [lib/controllers/dashboard.js] (form helpers, category forms, bulk form),
    followed by the properties of the design document that concern them and
    by further properties of the repositories and the controllers.

    The sources hold two revisions of [lib/storage/cv.js].  Module [Cv] is
    the one with interest categories and the migration of legacy interests,
    which the design document describes; module [CvEarlier] keeps what
    differs in the earlier one, where interests are a flat array.  The
    section and skill-category functions are the same in both.

    JavaScript values are modelled by a small JSON-like datatype.  Objects are
    finite maps from property names to values (their own properties: members
    inherited from [Object.prototype] are not modelled, and neither is the
    enumeration order of keys); arrays are lists, a hole reading as
    [undefined]; numbers are integers.  The MongoDB collection holds at most
    one document per fixed [_id] and gives back what was stored. *)

From Stdlib Require Import ZArith String Ascii DecimalString.
From stdpp Require Import gmap strings list fin_maps.

Local Open Scope string_scope.
Local Open Scope Z_scope.

(** ** JavaScript values *)

#[warnings="-register-all"]
Inductive value : Type :=
  | VUndefined
  | VNull
  | VBool (b : bool)
  | VNum (n : Z)
  | VStr (s : string)
  | VArr (l : list value)
  | VObj (o : gmap string value).

Abbreviation obj := (gmap string value).

#[global] Instance value_inhabited : Inhabited value := populate VUndefined.

(** [!v] is [negb (truthy v)]. *)
Definition truthy (v : value) : bool :=
  match v with
  | VUndefined | VNull => false
  | VBool b => b
  | VNum n => negb (Z.eqb n 0)
  | VStr s => negb (String.eqb s "")
  | VArr _ | VObj _ => true
  end.

(** [a || b] *)
Definition js_or (a b : value) : value := if truthy a then a else b.

Definition typeof (v : value) : string :=
  match v with
  | VUndefined => "undefined"
  | VNull | VArr _ | VObj _ => "object"
  | VBool _ => "boolean"
  | VNum _ => "number"
  | VStr _ => "string"
  end.

(** [Array.isArray(v)] *)
Definition isArray (v : value) : bool :=
  match v with VArr _ => true | _ => false end.

(** [o.k] on an object: the own property or [undefined]. *)
Definition field (o : obj) (k : string) : value := default VUndefined (o !! k).

(** [v === s] for a string [s]: strict equality never coerces. *)
Definition strict_eq_str (v : value) (s : string) : bool :=
  match v with VStr t => String.eqb t s | _ => false end.

(** [ToString], and [Array.prototype.join]: an element that is [undefined]
    or [null] contributes the empty string. *)
Fixpoint to_string (v : value) : string :=
  match v with
  | VUndefined => "undefined"
  | VNull => "null"
  | VBool true => "true"
  | VBool false => "false"
  | VNum n => NilZero.string_of_int (Z.to_int n)
  | VStr s => s
  | VArr l =>
      let fix items (l : list value) : list string :=
        match l with
        | [] => []
        | x :: r =>
            match x with
            | VUndefined | VNull => ""
            | _ => to_string x
            end :: items r
        end in
      String.concat "," (items l)
  | VObj _ => "[object Object]"
  end.

Definition join_item (v : value) : string :=
  match v with
  | VUndefined | VNull => ""
  | _ => to_string v
  end.

Definition join (sep : string) (l : list value) : string :=
  String.concat sep (map join_item l).

(** A property name that is an array index: the canonical decimal numeral
    of a natural number. *)
Definition index_of_key (k : string) : option nat :=
  match NilEmpty.uint_of_string k with
  | Some u =>
      let n := Nat.of_uint u in
      if String.eqb (NilZero.string_of_uint (Nat.to_uint n)) k then Some n else None
  | None => None
  end.

(** [base[k]] for a [base] that is neither [undefined] nor [null]. *)
Definition prop (base : value) (k : string) : value :=
  match base with
  | VObj o => field o k
  | VArr l =>
      match index_of_key k with
      | Some i => default VUndefined (l !! i)
      | None => if String.eqb k "length" then VNum (Z.of_nat (length l)) else VUndefined
      end
  | VStr s =>
      match index_of_key k with
      | Some i =>
          match String.get i s with
          | Some c => VStr (String c EmptyString)
          | None => VUndefined
          end
      | None => if String.eqb k "length" then VNum (Z.of_nat (String.length s)) else VUndefined
      end
  | _ => VUndefined
  end.

(** *** Arrays indexed by a number

    [arr[i]] reads [undefined] outside the array.  [arr[i] = v] replaces an
    element, extends the array when [i] is at or past its end (the gap reads
    [undefined]), and for a negative [i] creates a property named by the
    numeral, which is no element of the array. *)
Definition arr_get (l : list value) (i : Z) : value :=
  if i <? 0 then VUndefined else default VUndefined (l !! Z.to_nat i).

Definition arr_set (l : list value) (i : Z) (v : value) : list value :=
  if i <? 0 then l
  else if i <? Z.of_nat (length l) then <[Z.to_nat i := v]> l
  else l ++ replicate (Z.to_nat i - length l)%nat VUndefined ++ [v].

(** ** Exceptions *)

Inductive exn : Type := TypeError | SyntaxError.

Inductive result (A : Type) : Type :=
  | Ok (a : A)
  | Throw (e : exn).
Arguments Ok {A} a.
Arguments Throw {A} e.

#[global] Instance result_ret : MRet result := @Ok.
#[global] Instance result_bind : MBind result := fun A B k r =>
  match r with
  | Ok a => k a
  | Throw e => Throw e
  end.

(** [base[k]] and [delete base[k]] in strict mode (ES modules).  Reading a
    property of [undefined] or [null] throws.  [delete] on an array element
    leaves a hole; the [length] of an array and the characters and [length]
    of a string cannot be deleted. *)
Definition get_prop (base : value) (k : string) : result value :=
  match base with
  | VUndefined | VNull => Throw TypeError
  | _ => Ok (prop base k)
  end.

Definition delete_prop (base : value) (k : string) : result value :=
  match base with
  | VUndefined | VNull => Throw TypeError
  | VObj o => Ok (VObj (delete k o))
  | VArr l =>
      match index_of_key k with
      | Some i => Ok (VArr (<[i := VUndefined]> l))
      | None => if String.eqb k "length" then Throw TypeError else Ok (VArr l)
      end
  | VStr s =>
      match index_of_key k with
      | Some i => if (i <? String.length s)%nat then Throw TypeError else Ok base
      | None => if String.eqb k "length" then Throw TypeError else Ok base
      end
  | _ => Ok base
  end.

(** ** The database and the exported files

    One document per collection, under a fixed [_id]; [written] is the log of
    the JSON files handed to the site generator, most recent first. *)

Record store : Type := Store {
  cvData : option obj;
  cvPageConfig : option obj;
  written : list (string * obj)
}.

Definition empty_store : store := Store None None [].

(** ** [lib/storage/cv.js] *)

Module Cv.

Definition getCvData (st : store) : option obj := cvData st.

(** Flat interests array to category-based object. *)
Definition migrateInterests (interests interestTypes : value) : value :=
  if negb (truthy interests) then VObj ∅
  else
    match interests with
    | VArr l =>
        match l with
        | [] => VObj ∅
        | _ =>
            let types := js_or interestTypes (VObj ∅) in
            VObj (fold_left
              (fun (groups : obj) interest =>
                 let type := js_or (prop types (to_string interest)) (VStr "personal") in
                 let category := if strict_eq_str type "work" then "Work" else "Personal" in
                 let groups :=
                   if negb (truthy (field groups category))
                   then <[category := VArr []]> groups else groups in
                 match field groups category with
                 | VArr g => <[category := VArr (g ++ [interest])]> groups
                 | _ => groups
                 end)
              l ∅)
        end
    | _ => if String.eqb (typeof interests) "object" then interests else VObj ∅
    end.

(** Flat interestTypes map to category-based map. *)
Definition migrateInterestTypes (interests interestTypes : value) : value :=
  if negb (truthy interests) then VObj ∅
  else
    match interests with
    | VArr l =>
        match l with
        | [] => VObj ∅
        | _ =>
            let types := js_or interestTypes (VObj ∅) in
            VObj (fold_left
              (fun (categoryTypes : obj) interest =>
                 let type := js_or (prop types (to_string interest)) (VStr "personal") in
                 let category := if strict_eq_str type "work" then "Work" else "Personal" in
                 <[category := type]> categoryTypes)
              l ∅)
        end
    | _ => if String.eqb (typeof interestTypes) "object" then interestTypes else VObj ∅
    end.

(** The document [saveCvData] builds from [data] at time [now]. *)
Definition cvDocument (now : string) (data : obj) : obj :=
  {[ "_id" := VStr "cv";
     "experience" := js_or (field data "experience") (VArr []);
     "projects" := js_or (field data "projects") (VArr []);
     "skills" := js_or (field data "skills") (VObj ∅);
     "skillTypes" := js_or (field data "skillTypes") (VObj ∅);
     "education" := js_or (field data "education") (VArr []);
     "languages" := js_or (field data "languages") (VArr []);
     "interests" := migrateInterests (field data "interests") (field data "interestTypes");
     "interestTypes" := migrateInterestTypes (field data "interests") (field data "interestTypes");
     "lastUpdated" := VStr now ]}.

(** [writeCvFile]: the document without its [_id] goes to [cv.json]. *)
Definition writeCvFile (st : store) (data : obj) : store :=
  Store (cvData st) (cvPageConfig st) (("cv.json", delete "_id" data) :: written st).

(** [replaceOne] with upsert, then the file; the document is returned. *)
Definition saveCvData (st : store) (now : string) (data : obj) : store * obj :=
  let document := cvDocument now data in
  let st := Store (Some document) (cvPageConfig st) (written st) in
  (writeCvFile st document, document).

Definition getDefaultCvData : obj :=
  {[ "experience" := VArr [];
     "projects" := VArr [];
     "skills" := VObj ∅;
     "skillTypes" := VObj ∅;
     "education" := VArr [];
     "languages" := VArr [];
     "interests" := VObj ∅;
     "interestTypes" := VObj ∅;
     "lastUpdated" := VNull ]}.

(** [(await getCvData(application)) || getDefaultCvData()] *)
Definition loadCvData (st : store) : obj :=
  match getCvData st with
  | Some data => data
  | None => getDefaultCvData
  end.

Definition addToSection (st : store) (now : string) (section : string) (item : value)
  : store * obj :=
  let data := loadCvData st in
  let data := if negb (isArray (field data section))
              then <[section := VArr []]> data else data in
  match field data section with
  | VArr l => saveCvData st now (<[section := VArr (l ++ [item])]> data)
  | _ => saveCvData st now data
  end.

Definition updateInSection (st : store) (now : string) (section : string)
    (index : Z) (item : value) : store * obj :=
  let data := loadCvData st in
  match field data section with
  | VArr l =>
      if (0 <=? index) && (index <? Z.of_nat (length l))
      then saveCvData st now (<[section := VArr (arr_set l index item)]> data)
      else saveCvData st now data
  | _ => saveCvData st now data
  end.

(** [splice(index, 1)] is only reached with [0 <= index < length]. *)
Definition removeFromSection (st : store) (now : string) (section : string)
    (index : Z) : store * obj :=
  let data := loadCvData st in
  match field data section with
  | VArr l =>
      if (0 <=? index) && (index <? Z.of_nat (length l))
      then saveCvData st now (<[section := VArr (delete (Z.to_nat index) l)]> data)
      else saveCvData st now data
  | _ => saveCvData st now data
  end.

(** The destructuring swap reads both elements, then assigns [arr[index]]
    and [arr[targetIndex]] in that order. *)
Definition moveInSection (st : store) (now : string) (section : string)
    (index : Z) (direction : string) : store * obj :=
  let data := loadCvData st in
  match field data section with
  | VArr arr =>
      let targetIndex := if String.eqb direction "up" then index - 1 else index + 1 in
      if (targetIndex <? 0) || (Z.of_nat (length arr) <=? targetIndex) then (st, data)
      else
        let a := arr_get arr targetIndex in
        let b := arr_get arr index in
        let arr := arr_set arr index a in
        let arr := arr_set arr targetIndex b in
        saveCvData st now (<[section := VArr arr]> data)
  | _ => (st, data)
  end.

(** [if (typeof m !== "object" || Array.isArray(m)) m = {}] *)
Definition resetUnlessObject (m : value) : value :=
  if negb (String.eqb (typeof m) "object") || isArray m then VObj ∅ else m.

(** [m[k] = v] for an [m] that went through the reset above: an object,
    or [null], on which the assignment throws. *)
Definition set_prop (m : value) (k : string) (v : value) : result value :=
  match m with
  | VObj o => Ok (VObj (<[k := v]> o))
  | _ => Throw TypeError
  end.

(** [if (cond && m[k]) delete m[k]] *)
Definition deleteIfSet (cond : bool) (m : value) (k : string) : result value :=
  if cond then
    x ← get_prop m k;
    if truthy x then delete_prop m k else Ok m
  else Ok m.

Definition addSkillCategory (st : store) (now : string) (category : string)
    (items skillType : value) : result (store * obj) :=
  let data := loadCvData st in
  let data := <["skills" := resetUnlessObject (field data "skills")]> data in
  let data := <["skillTypes" := resetUnlessObject (field data "skillTypes")]> data in
  skills ← set_prop (field data "skills") category items;
  skillTypes ← set_prop (field data "skillTypes") category (js_or skillType (VStr "personal"));
  Ok (saveCvData st now (<["skillTypes" := skillTypes]> (<["skills" := skills]> data))).

Definition editSkillCategory (st : store) (now : string)
    (oldCategory newCategory : string) (items skillType : value)
  : result (store * obj) :=
  let data := loadCvData st in
  let data := <["skills" := resetUnlessObject (field data "skills")]> data in
  let data := <["skillTypes" := resetUnlessObject (field data "skillTypes")]> data in
  let renamed := negb (String.eqb oldCategory newCategory) in
  skills ← deleteIfSet renamed (field data "skills") oldCategory;
  skillTypes ← deleteIfSet renamed (field data "skillTypes") oldCategory;
  skills ← set_prop skills newCategory items;
  skillTypes ← set_prop skillTypes newCategory (js_or skillType (VStr "personal"));
  Ok (saveCvData st now (<["skillTypes" := skillTypes]> (<["skills" := skills]> data))).

Definition removeSkillCategory (st : store) (now : string) (category : string)
  : result (store * obj) :=
  let data := loadCvData st in
  skills ← deleteIfSet (truthy (field data "skills")) (field data "skills") category;
  skillTypes ← deleteIfSet (truthy (field data "skillTypes")) (field data "skillTypes") category;
  let data := if truthy (field data "skills") then <["skills" := skills]> data else data in
  let data := if truthy (field data "skillTypes")
              then <["skillTypes" := skillTypes]> data else data in
  Ok (saveCvData st now data).

End Cv.

(** ** [lib/storage/cv.js], earlier revision

    Before interest categories existed, interests were stored as they came;
    the legacy documents that [Cv.migrateInterests] converts were written by
    this [saveCvData]. *)

Module CvEarlier.

Definition cvDocument (now : string) (data : obj) : obj :=
  {[ "_id" := VStr "cv";
     "experience" := js_or (field data "experience") (VArr []);
     "projects" := js_or (field data "projects") (VArr []);
     "skills" := js_or (field data "skills") (VObj ∅);
     "skillTypes" := js_or (field data "skillTypes") (VObj ∅);
     "education" := js_or (field data "education") (VArr []);
     "languages" := js_or (field data "languages") (VArr []);
     "interests" := js_or (field data "interests") (VArr []);
     "interestTypes" := js_or (field data "interestTypes") (VObj ∅);
     "lastUpdated" := VStr now ]}.

Definition saveCvData (st : store) (now : string) (data : obj) : store * obj :=
  let document := cvDocument now data in
  let st := Store (Some document) (cvPageConfig st) (written st) in
  (Cv.writeCvFile st document, document).

End CvEarlier.

(** ** [lib/storage/cvPageConfig.js] *)

Module CvPageConfig.

Definition getConfig (st : store) : option obj := cvPageConfig st.

Definition defaultHero : value :=
  VObj {[ "enabled" := VBool true; "showSocial" := VBool true ]}.

Definition configDocument (now : string) (config : obj) : obj :=
  {[ "_id" := VStr "cv-page";
     "layout" := js_or (field config "layout") (VStr "single-column");
     "hero" := js_or (field config "hero") defaultHero;
     "sections" := js_or (field config "sections") (VArr []);
     "sidebar" := js_or (field config "sidebar") (VArr []);
     "footer" := js_or (field config "footer") (VArr []);
     "identity" := js_or (field config "identity") VNull;
     "updatedAt" := VStr now ]}.

Definition writeConfigFile (st : store) (config : obj) : store :=
  let fileConfig : obj :=
    {[ "layout" := field config "layout";
       "hero" := field config "hero";
       "sections" := field config "sections";
       "sidebar" := field config "sidebar";
       "footer" := field config "footer";
       "identity" := field config "identity";
       "updatedAt" := field config "updatedAt" ]} in
  Store (cvData st) (cvPageConfig st) (("cv-page.json", fileConfig) :: written st).

Definition saveConfig (st : store) (now : string) (config : obj) : store * obj :=
  let document := configDocument now config in
  let st := Store (cvData st) (Some document) (written st) in
  (writeConfigFile st document, document).

Definition entry (type : string) (config : obj) : value :=
  VObj {[ "type" := VStr type; "config" := VObj config ]}.

Definition getDefaultConfig : obj :=
  {[ "layout" := VStr "single-column";
     "hero" := defaultHero;
     "sections" := VArr [
       entry "cv-experience-work" ∅;
       entry "cv-skills-work" ∅;
       entry "cv-projects-work" ∅;
       entry "cv-education-work" ∅;
       entry "cv-languages" ∅;
       entry "cv-interests-work" ∅ ];
     "sidebar" := VArr [];
     "footer" := VArr [] ]}.

End CvPageConfig.

(** ** [lib/controllers/pageBuilder.js] *)

Module PageBuilder.
Import CvPageConfig.

(** A preset of the catalog; its entries are object literals
    [{ type, config }]. *)
Record Entry : Type := { type : string; config : obj }.

Record Preset : Type := {
  id : string;
  label : string;
  description : string;
  layout : string;
  hero : obj;
  sections : list Entry;
  sidebar : list Entry
}.

Definition entry_value (e : Entry) : value := entry (type e) (config e).

(** [(v || []).map((s) => s.type)]: [map] exists on arrays only, and
    reading [type] off [undefined] or [null] throws. *)
Definition types_of (v : value) : result (list value) :=
  match js_or v (VArr []) with
  | VArr l => mapM (fun s => get_prop s "type") l
  | _ => Throw TypeError
  end.

Definition preset_types (es : list Entry) : string :=
  join "," (map (fun s => VStr (type s)) es).

Fixpoint detectActivePreset (config : obj) (presets : list Preset)
  : result (option string) :=
  match presets with
  | [] => Ok None
  | preset :: rest =>
      if negb (strict_eq_str (field config "layout") (layout preset))
      then detectActivePreset config rest
      else
        configTypes ← types_of (field config "sections");
        if negb (String.eqb (join "," configTypes) (preset_types (sections preset)))
        then detectActivePreset config rest
        else
          configWidgets ← types_of (field config "sidebar");
          if negb (String.eqb (join "," configWidgets) (preset_types (sidebar preset)))
          then detectActivePreset config rest
          else Ok (Some (id preset))
  end.

Definition getCvPresets : list Preset := [
  {| id := "professional-cv";
     label := "Professional CV";
     description :=
       "Clean single-column layout with work-only sections for a professional resume";
     layout := "single-column";
     hero := {[ "enabled" := VBool true; "showSocial" := VBool true ]};
     sections := [
       {| type := "cv-experience-work"; config := ∅ |};
       {| type := "cv-skills-work"; config := ∅ |};
       {| type := "cv-projects-work"; config := ∅ |};
       {| type := "cv-education-work"; config := ∅ |};
       {| type := "cv-languages"; config := ∅ |};
       {| type := "cv-interests-work"; config := ∅ |} ];
     sidebar := [] |};
  {| id := "full-portfolio";
     label := "Full Portfolio";
     description :=
       "Two-column layout showcasing both work and personal projects with sidebar";
     layout := "two-column";
     hero := {[ "enabled" := VBool true; "showSocial" := VBool true ]};
     sections := [
       {| type := "cv-experience"; config := {[ "maxItems" := VNum 5 ]} |};
       {| type := "cv-skills"; config := ∅ |};
       {| type := "cv-projects"; config := ∅ |};
       {| type := "cv-education"; config := ∅ |};
       {| type := "cv-languages"; config := ∅ |};
       {| type := "cv-interests"; config := ∅ |} ];
     sidebar := [
       {| type := "author-card"; config := ∅ |};
       {| type := "social-activity"; config := ∅ |};
       {| type := "github-repos"; config := ∅ |} ] |};
  {| id := "minimal";
     label := "Minimal";
     description := "Concise single-column layout with essential sections only";
     layout := "single-column";
     hero := {[ "enabled" := VBool true; "showSocial" := VBool true ]};
     sections := [
       {| type := "cv-experience-work"; config := {[ "maxItems" := VNum 5 ]} |};
       {| type := "cv-skills-work"; config := ∅ |};
       {| type := "cv-education-work"; config := ∅ |} ];
     sidebar := [] |} ].

Record request : Type := { body : obj; accept : option string }.

Inductive response : Type :=
  | Redirect (url : string)
  | Json (status : Z) (success : bool) (message : string)
  | RenderError (message : string).

(** [s.includes(sub)] *)
Definition includes (s sub : string) : bool :=
  match String.index 0 sub s with Some _ => true | None => false end.

(** [request.headers.accept?.includes("application/json")] *)
Definition wantsJson (r : request) : bool :=
  match accept r with
  | Some a => includes a "application/json"
  | None => false
  end.

Definition validLayouts : list string :=
  ["single-column"; "two-column"; "full-width-hero"].

(** [validLayouts.includes(v)] *)
Definition isValidLayout (v : value) : bool :=
  existsb (strict_eq_str v) validLayouts.

(** [currentConfig?.k] *)
Definition current (currentConfig : option obj) (k : string) : value :=
  match currentConfig with
  | Some c => field c k
  | None => VUndefined
  end.

(** [Object.values(v)] for a truthy [v] (the order in which an object
    enumerates its keys is not modelled). *)
Definition object_values (v : value) : list value :=
  match v with
  | VArr l => l
  | VObj o => (map_to_list o).*2
  | VStr s => map (fun c => VStr (String c EmptyString)) (list_ascii_of_string s)
  | _ => []
  end.

(** Social links of the identity form: [social[0][name]], [social[0][url]],
    ... arrive as nested objects. *)
Definition parseSocialLinks (body : obj) : list value :=
  if negb (truthy (field body "social")) then []
  else
    let entries :=
      match field body "social" with
      | VArr l => l
      | v => object_values v
      end in
    fold_left
      (fun (social : list value) entry =>
         if negb (truthy entry)
            || (negb (truthy (prop entry "name")) && negb (truthy (prop entry "url")))
         then social
         else (social ++ [VObj {[ "name" := js_or (prop entry "name") (VStr "");
                                  "url" := js_or (prop entry "url") (VStr "");
                                  "rel" := js_or (prop entry "rel") (VStr "me");
                                  "icon" := js_or (prop entry "icon") (VStr "") ]}])%list)
      entries [].

Section Controllers.

(** [JSON.parse], which throws a [SyntaxError] on malformed text, and the
    mount path [application.cvEndpoint]. *)
Variable JSON_parse : string -> result value.
Variable cvEndpoint : string.

(** [typeof v === "string" ? JSON.parse(v) : v] *)
Definition parseIfString (v : value) : result value :=
  match v with
  | VStr s => JSON_parse s
  | _ => Ok v
  end.

(** POST /cv/page/save *)
Definition save (st : store) (now : string) (r : request) : store * response :=
  let attempt : result (store * response) :=
    parsedHero ← parseIfString (field (body r) "hero");
    parsedSections ← parseIfString (field (body r) "sections");
    parsedSidebar ← parseIfString (field (body r) "sidebar");
    parsedFooter ← parseIfString (field (body r) "footer");
    let layout := field (body r) "layout" in
    let currentConfig := getConfig st in
    let config : obj :=
      {[ "layout" := if isValidLayout layout then layout else VStr "single-column";
         "hero" := match parsedHero with
                   | VArr _ | VObj _ => parsedHero
                   | _ => defaultHero
                   end;
         "sections" := if isArray parsedSections then parsedSections else VArr [];
         "sidebar" := if isArray parsedSidebar then parsedSidebar else VArr [];
         "footer" := if isArray parsedFooter then parsedFooter else VArr [];
         "identity" := js_or (current currentConfig "identity") VNull ]} in
    let st := fst (saveConfig st now config) in
    Ok (st,
        if wantsJson r then Json 200 true "Configuration saved"
        else Redirect (cvEndpoint ++ "/page?saved=1")%string)
  in
  match attempt with
  | Ok out => out
  | Throw _ =>
      (st,
       if wantsJson r then Json 500 false "Failed to save configuration"
       else RenderError "Failed to save configuration")
  end.

(** POST /cv/page/preset *)
Definition applyPreset (st : store) (now : string) (r : request) : store * response :=
  let presetId := field (body r) "presetId" in
  match find (fun p => strict_eq_str presetId (id p)) getCvPresets with
  | None => (st, Redirect (cvEndpoint ++ "/page?error=unknown-preset")%string)
  | Some preset =>
      let currentConfig := getConfig st in
      let config : obj :=
        {[ "layout" := VStr (layout preset);
           "hero" := VObj (hero preset);
           "sections" := VArr (map entry_value (sections preset));
           "sidebar" := VArr (map entry_value (sidebar preset));
           "footer" := js_or (current currentConfig "footer") (VArr []);
           "identity" := js_or (current currentConfig "identity") VNull ]} in
      let st := fst (saveConfig st now config) in
      (st, Redirect (cvEndpoint ++ "/page?saved=1")%string)
  end.

(** POST /cv/page/save-identity *)
Definition saveIdentity (st : store) (now : string) (r : request) : store * response :=
  let identity : obj :=
    {[ "name" := js_or (field (body r) "identity-name") (VStr "");
       "avatar" := js_or (field (body r) "identity-avatar") (VStr "");
       "title" := js_or (field (body r) "identity-title") (VStr "");
       "pronoun" := js_or (field (body r) "identity-pronoun") (VStr "");
       "bio" := js_or (field (body r) "identity-bio") (VStr "");
       "description" := js_or (field (body r) "identity-description") (VStr "");
       "locality" := js_or (field (body r) "identity-locality") (VStr "");
       "country" := js_or (field (body r) "identity-country") (VStr "");
       "org" := js_or (field (body r) "identity-org") (VStr "");
       "url" := js_or (field (body r) "identity-url") (VStr "");
       "email" := js_or (field (body r) "identity-email") (VStr "");
       "keyUrl" := js_or (field (body r) "identity-keyUrl") (VStr "");
       "social" := VArr (parseSocialLinks (body r)) ]} in
  let currentConfig := getConfig st in
  let config : obj :=
    {[ "layout" := js_or (current currentConfig "layout") (VStr "single-column");
       "hero" := js_or (current currentConfig "hero") defaultHero;
       "sections" := js_or (current currentConfig "sections") (VArr []);
       "sidebar" := js_or (current currentConfig "sidebar") (VArr []);
       "footer" := js_or (current currentConfig "footer") (VArr []);
       "identity" := VObj identity ]} in
  let st := fst (saveConfig st now config) in
  (st,
   if wantsJson r then Json 200 true "CV identity saved"
   else Redirect (cvEndpoint ++ "/page/identity?saved=1")%string).

End Controllers.

End PageBuilder.

(** ** [lib/storage/cv.js]: interest categories (they mirror the skill ones) *)

Module CvInterest.
Import Cv.

Definition addInterestCategory (st : store) (now : string) (category : string)
    (items interestType : value) : result (store * obj) :=
  let data := loadCvData st in
  let data := <["interests" := resetUnlessObject (field data "interests")]> data in
  let data := <["interestTypes" := resetUnlessObject (field data "interestTypes")]> data in
  interests ← set_prop (field data "interests") category items;
  interestTypes ← set_prop (field data "interestTypes") category
                    (js_or interestType (VStr "personal"));
  Ok (saveCvData st now
        (<["interestTypes" := interestTypes]> (<["interests" := interests]> data))).

Definition editInterestCategory (st : store) (now : string)
    (oldCategory newCategory : string) (items interestType : value)
  : result (store * obj) :=
  let data := loadCvData st in
  let data := <["interests" := resetUnlessObject (field data "interests")]> data in
  let data := <["interestTypes" := resetUnlessObject (field data "interestTypes")]> data in
  let renamed := negb (String.eqb oldCategory newCategory) in
  interests ← deleteIfSet renamed (field data "interests") oldCategory;
  interestTypes ← deleteIfSet renamed (field data "interestTypes") oldCategory;
  interests ← set_prop interests newCategory items;
  interestTypes ← set_prop interestTypes newCategory
                    (js_or interestType (VStr "personal"));
  Ok (saveCvData st now
        (<["interestTypes" := interestTypes]> (<["interests" := interests]> data))).

Definition removeInterestCategory (st : store) (now : string) (category : string)
  : result (store * obj) :=
  let data := loadCvData st in
  interests ← deleteIfSet (truthy (field data "interests"))
                (field data "interests") category;
  interestTypes ← deleteIfSet (truthy (field data "interestTypes"))
                    (field data "interestTypes") category;
  let data := if truthy (field data "interests")
              then <["interests" := interests]> data else data in
  let data := if truthy (field data "interestTypes")
              then <["interestTypes" := interestTypes]> data else data in
  Ok (saveCvData st now data).

End CvInterest.

(** ** [lib/controllers/api.js] *)

Module Api.



End Api.

(** ** [lib/controllers/pageBuilder.js]: what the builder pages show *)

Module PageBuilderViews.
Import CvPageConfig PageBuilder.

(** GET /cv/page: the preset the stored (or default) configuration matches. *)
Definition activePresetId (st : store) : result (option string) :=
  detectActivePreset (default getDefaultConfig (getConfig st)) getCvPresets.

(** GET /cv/page/identity: [config.identity || {}]. *)
Definition shownIdentity (st : store) : value :=
  js_or (field (default getDefaultConfig (getConfig st)) "identity") (VObj ∅).

End PageBuilderViews.

(** ** [lib/controllers/dashboard.js]: form helpers, category forms, bulk form

    The handlers call the repository functions of [Cv] and [CvInterest] with
    the four and five arguments these take. *)

Module Dashboard.

(** [s.split(sep)] for a one-character separator. *)
Fixpoint split (sep : ascii) (s : string) : list string :=
  match s with
  | EmptyString => [EmptyString]
  | String c r =>
      if Ascii.eqb c sep then EmptyString :: split sep r
      else
        match split sep r with
        | [] => [String c EmptyString]
        | x :: xs => String c x :: xs
        end
  end.

Section Helpers.

(** [String.prototype.trim]. *)
Variable trim : string -> string.

(** [value.split(sep).map((s) => s.trim()).filter(Boolean)]; only strings
    have [split]. *)
Definition splitTrimmed (sep : ascii) (v : value) : result (list value) :=
  if negb (truthy v) then Ok []
  else
    match v with
    | VStr s =>
        Ok (map VStr (List.filter (fun x => negb (String.eqb x ""))
                        (map trim (split sep s))))
    | _ => Throw TypeError
    end.

Definition parseCommaList (v : value) : result (list value) :=
  splitTrimmed ","%char v.

Definition parseLines (v : value) : result (list value) :=
  splitTrimmed "010"%char v.

(** The outcome of a handler: where the browser is sent. *)
Inductive outcome : Type := Saved | Failed.

(** POST /skills/add.  The category of the form becomes a property name,
    hence a string. *)
Definition addSkillCategory (st : store) (now : string) (body : obj) : store * outcome :=
  match
    items ← parseCommaList (field body "items");
    Cv.addSkillCategory st now
      (to_string (js_or (field body "category") (VStr "Uncategorized")))
      (VArr items) (field body "skillType")
  with
  | Ok r => (fst r, Saved)
  | Throw _ => (st, Failed)
  end.



(** POST /interests/add *)
Definition addInterestCategory (st : store) (now : string) (body : obj)
  : store * outcome :=
  match
    items ← parseCommaList (field body "items");
    CvInterest.addInterestCategory st now
      (to_string (js_or (field body "category") (VStr "Uncategorized")))
      (VArr items) (field body "interestType")
  with
  | Ok r => (fst r, Saved)
  | Throw _ => (st, Failed)
  end.



End Helpers.

Section BulkSave.

Variable trim : string -> string.
Variable JSON_parse : string -> result value.

(** [Object.entries(v)] of an object or an array, whose keys are its
    indices (the order in which an object enumerates its keys is not
    modelled; the keys are distinct). *)
Definition object_entries (v : value) : list (string * value) :=
  match v with
  | VObj o => map_to_list o
  | VArr l => imap (fun i x => (NilZero.string_of_uint (Nat.to_uint i), x)) l
  | _ => []
  end.

(** Indexed form fields such as [experience[0][title]]. *)
Definition parseArrayField (body : obj) (fieldName : string) : list value :=
  let v := field body fieldName in
  if negb (truthy v) then []
  else
    match v with
    | VArr l => l
    | VStr s =>
        match JSON_parse s with
        | Ok (VArr l) => l
        | _ => []
        end
    | VObj _ => PageBuilder.object_values v
    | _ => []
    end.

(** The loop of [parseSkillsField] and of [parseInterestsField]: a string
    is split at its commas, a list is kept, anything else is skipped. *)
Definition categoryLists (v : value) : result obj :=
  fold_left
    (fun (lists : result obj) '(category, items) =>
       acc ← lists;
       match items with
       | VStr _ => l ← parseCommaList trim items; Ok (<[category := VArr l]> acc)
       | VArr _ => Ok (<[category := items]> acc)
       | _ => Ok acc
       end)
    (object_entries v) (Ok ∅).

Definition parseSkillsField (body : obj) : result obj :=
  let skills := field body "skills" in
  if negb (truthy skills) || negb (String.eqb (typeof skills) "object") then Ok ∅
  else categoryLists skills.

Definition parseSkillTypesField (body : obj) : value :=
  let skillTypes := field body "skillTypes" in
  if negb (truthy skillTypes) || negb (String.eqb (typeof skillTypes) "object")
  then VObj ∅
  else skillTypes.

Definition parseInterestsField (body : obj) : result obj :=
  let interests := field body "interests" in
  if negb (truthy interests) || negb (String.eqb (typeof interests) "object") then Ok ∅
  else categoryLists interests.

Definition parseInterestTypesField (body : obj) : value :=
  let interestTypes := field body "interestTypes" in
  if negb (truthy interestTypes) || negb (String.eqb (typeof interestTypes) "object")
  then VObj ∅
  else interestTypes.

(** POST /save: the whole profile from one form. *)
Definition save (st : store) (now : string) (body : obj) : store * outcome :=
  match
    skills ← parseSkillsField body;
    interests ← parseInterestsField body;
    Ok (Cv.saveCvData st now
          {[ "experience" := VArr (parseArrayField body "experience");
             "projects" := VArr (parseArrayField body "projects");
             "skills" := VObj skills;
             "skillTypes" := parseSkillTypesField body;
             "education" := VArr (parseArrayField body "education");
             "languages" := VArr (parseArrayField body "languages");
             "interests" := VObj interests;
             "interestTypes" := parseInterestTypesField body ]})
  with
  | Ok r => (fst r, Saved)
  | Throw _ => (st, Failed)
  end.

End BulkSave.

End Dashboard.

(** * Vocabulary of the properties *)

Section Vocabulary.
Import Cv CvPageConfig PageBuilder.

(** *** Ordered sections *)

(** The list-valued sections of the profile document. *)
Definition orderedSection (section : string) : Prop :=
  section ∈ ["experience"; "projects"; "education"; "languages"].

(** The field [k] of the stored profile document. *)
Definition stored (st : store) (k : string) : value :=
  match cvData st with
  | Some doc => field doc k
  | None => VUndefined
  end.

(** A profile with two experience entries, saved at [t0]. *)
Definition twoEntries : store :=
  fst (saveCvData empty_store "t0"
         (<["experience" := VArr [VStr "a"; VStr "b"]]> getDefaultCvData)).

(** A call persisted at [now]: the stored document carries that
    timestamp and one more file was exported. *)
Definition persistedAt (before after : store) (now : string) : Prop :=
  stored after "lastUpdated" = VStr now
  /\ length (written after) = S (length (written before)).

(** *** Interests *)

(** The stored profile document holds interests as a category map. *)
Definition interestsCurrent (st : store) : Prop :=
  exists o, stored st "interests" = VObj o.

(** The classifier of a legacy interest: its entry in [interestTypes], or
    "personal". *)
Definition classifier (interestTypes interest : value) : value :=
  js_or (prop (js_or interestTypes (VObj ∅)) (to_string interest)) (VStr "personal").

Definition isWork (interestTypes interest : value) : bool :=
  strict_eq_str (classifier interestTypes interest) "work".

(** A category and its items, left out when there are none. *)
Definition withGroup (category : string) (items : list value) (groups : obj) : obj :=
  match items with
  | [] => groups
  | _ => <[category := VArr items]> groups
  end.

(** The "Work" items and the "Personal" items of [l], each in the order of [l]. *)
Definition groupsOf (interestTypes : value) (l : list value) : obj :=
  withGroup "Work" (List.filter (isWork interestTypes) l)
    (withGroup "Personal" (List.filter (fun i => negb (isWork interestTypes i)) l) ∅).

(** *** Skill categories *)

(** A call to one of the three skill-category operations; [items] is a
    list, as the dashboard passes it. *)
Inductive skillCall : Type :=
  | AddSkillCategory (category : string) (items : list value) (skillType : value)
  | EditSkillCategory (oldCategory newCategory : string)
      (items : list value) (skillType : value)
  | RemoveSkillCategory (category : string).

Definition runSkillCall (st : store) (now : string) (c : skillCall) : result store :=
  match c with
  | AddSkillCategory category items skillType =>
      r ← addSkillCategory st now category (VArr items) skillType; Ok (fst r)
  | EditSkillCategory oldCategory newCategory items skillType =>
      r ← editSkillCategory st now oldCategory newCategory (VArr items) skillType;
      Ok (fst r)
  | RemoveSkillCategory category =>
      r ← removeSkillCategory st now category; Ok (fst r)
  end.

(** A sequence of calls, each at its own time. *)
Fixpoint runSkillCalls (st : store) (calls : list (string * skillCall)) : result store :=
  match calls with
  | [] => Ok st
  | (now, c) :: rest => st' ← runSkillCall st now c; runSkillCalls st' rest
  end.

(** The key sets of [skills] and [skillTypes] coincide. *)
Definition keysAligned (data : obj) : Prop :=
  exists s t : obj,
    field data "skills" = VObj s /\ field data "skillTypes" = VObj t
    /\ dom s = dom t.

(** The inductive invariant: both are maps over the same keys, and every
    value is truthy, so that the guards [if (m[k]) delete m[k]] fire
    exactly on the keys present. *)
Definition allTruthy (m : obj) : Prop := map_Forall (fun _ v => truthy v = true) m.

Definition skillsInv (data : obj) : Prop :=
  exists s t : obj,
    data !! "skills" = Some (VObj s) /\ data !! "skillTypes" = Some (VObj t)
    /\ dom s = dom t /\ allTruthy s /\ allTruthy t.

Definition storeInv (st : store) : Prop := skillsInv (loadCvData st).

(** *** Preset matching *)

Fixpoint hasComma (s : string) : bool :=
  match s with
  | EmptyString => false
  | String c r => Ascii.eqb c ","%char || hasComma r
  end.

(** A section type that survives the comma join: not empty, no comma. *)
Definition cleanType (s : string) : Prop := s ≠ "" /\ hasComma s = false.

(** The [type] of an entry [{ type, config }], when it is a string. *)
Definition entryType (s : value) : option string :=
  match s with
  | VObj o =>
      match o !! "type" with
      | Some (VStr t) => Some t
      | _ => None
      end
  | _ => None
  end.

(** The ordered sequence of type values of a sections (or sidebar) field;
    an absent field is the empty sequence. *)
Definition entryTypes (v : value) : option (list string) :=
  match js_or v (VArr []) with
  | VArr l => mapM entryType l
  | _ => None
  end.

(** The design's matching rule: equal layout, equal sequence of section
    types, equal sequence of sidebar types. *)
Definition structuralMatch (config : obj) (p : Preset) : Prop :=
  field config "layout" = VStr (layout p)
  /\ entryTypes (field config "sections") = Some (map type (sections p))
  /\ entryTypes (field config "sidebar") = Some (map type (sidebar p)).

Definition structuralMatchb (config : obj) (p : Preset) : bool :=
  strict_eq_str (field config "layout") (layout p)
  && bool_decide (entryTypes (field config "sections") = Some (map type (sections p)))
  && bool_decide (entryTypes (field config "sidebar") = Some (map type (sidebar p))).

(** The identifier of the first preset of the catalog that matches. *)
Definition firstStructuralMatch (config : obj) (presets : list Preset) : option string :=
  id <$> find (structuralMatchb config) presets.

Definition cleanPreset (p : Preset) : Prop :=
  Forall cleanType (map type (sections p)) /\ Forall cleanType (map type (sidebar p)).

(** A stored configuration whose only section entry carries, as its type,
    the three section types of the "minimal" preset joined by commas. *)
Definition commaConfig : obj :=
  {[ "layout" := VStr "single-column";
     "sections" := VArr [entry "cv-experience-work,cv-skills-work,cv-education-work" ∅];
     "sidebar" := VArr [] ]}.

(** *** Page configuration *)

(** The stored layout, if any, belongs to the enum. *)
Definition layoutValid (st : store) : Prop :=
  match cvPageConfig st with
  | Some doc => isValidLayout (field doc "layout") = true
  | None => True
  end.

(** The stored footer is a list and the stored identity is null or an
    object, as the data model has them. *)
Definition configShape (st : store) : Prop :=
  match cvPageConfig st with
  | Some doc =>
      isArray (field doc "footer") = true
      /\ (field doc "identity" = VNull \/ exists o, field doc "identity" = VObj o)
  | None => True
  end.

(** The layout [save] hands to the store. *)
Definition coerceLayout (layout : value) : value :=
  if isValidLayout layout then layout else VStr "single-column".

(** The footer and identity [applyPreset] and [save] carry over. *)
Definition carriedFooter (st : store) : value :=
  match cvPageConfig st with
  | Some doc => field doc "footer"
  | None => VArr []
  end.

Definition carriedIdentity (st : store) : value :=
  match cvPageConfig st with
  | Some doc => field doc "identity"
  | None => VNull
  end.

(** A page configuration saved from the builder, with a footer entry and an
    identity. *)
Definition configuredStore : store :=
  Store None
    (Some {[ "_id" := VStr "cv-page";
             "layout" := VStr "two-column";
             "hero" := CvPageConfig.defaultHero;
             "sections" := VArr [CvPageConfig.entry "cv-skills" ∅];
             "sidebar" := VArr [];
             "footer" := VArr [CvPageConfig.entry "custom-html" ∅];
             "identity" := VObj {[ "name" := VStr "Ada" ]};
             "updatedAt" := VStr "t0" ]})
    [].

End Vocabulary.

(** Requests to the controllers that write the page configuration. *)

Section PageCalls.
Import PageBuilder.

Variable JSON_parse : string -> result value.
Variable cvEndpoint : string.

(** The [hero], [sections], [sidebar] and [footer] fields of the form all
    go through [JSON.parse] without an exception. *)
Definition parses (v : value) : bool :=
  match parseIfString JSON_parse v with
  | Ok _ => true
  | Throw _ => false
  end.

Definition bodyParses (r : request) : bool :=
  parses (field (body r) "hero") && parses (field (body r) "sections")
  && parses (field (body r) "sidebar") && parses (field (body r) "footer").

(** One request to a controller that writes the page configuration. *)
Inductive pageCall : Type :=
  | SaveCall (r : request)
  | ApplyPresetCall (r : request)
  | SaveIdentityCall (r : request).

Definition runPageCall (st : store) (now : string) (c : pageCall) : store :=
  match c with
  | SaveCall r => fst (save JSON_parse cvEndpoint st now r)
  | ApplyPresetCall r => fst (applyPreset cvEndpoint st now r)
  | SaveIdentityCall r => fst (saveIdentity cvEndpoint st now r)
  end.

Definition runPageCalls (st : store) (calls : list (string * pageCall)) : store :=
  fold_left (fun st '(now, c) => runPageCall st now c) calls st.

End PageCalls.

(** ** Vocabulary of the repository and dashboard properties *)

Section RepositoryVocabulary.
Import Cv CvPageConfig PageBuilder.

(** *** Documents written by [saveCvData] *)

(** The collection is empty or holds a document written by [saveCvData]. *)
Definition writtenBySave (st : store) : Prop :=
  match cvData st with
  | Some doc => exists t0 d, doc = cvDocument t0 d
  | None => True
  end.

(** The items of a section; a value that is no list counts as empty. *)
Definition sectionItems (data : obj) (section : string) : list value :=
  match field data section with
  | VArr l => l
  | _ => []
  end.

(** [data] with [items] under [section], as [saveCvData] stamps it at [now]. *)
Definition withSection (now : string) (section : string) (items : list value)
    (data : obj) : obj :=
  <["_id" := VStr "cv"]>
    (<["lastUpdated" := VStr now]> (<[section := VArr items]> data)).

(** The list with its elements at [k] and [k+1] exchanged. *)
Definition swapAdjacent (k : nat) (l : list value) : list value :=
  match l !! k, l !! S k with
  | Some a, Some b => <[k := b]> (<[S k := a]> l)
  | _, _ => l
  end.

(** *** Calls to the repository *)

(** The four list-valued sections the dashboard has routes for. *)
Inductive orderedName : Type := Experience | Projects | Education | Languages.

Definition sectionName (n : orderedName) : string :=
  match n with
  | Experience => "experience"
  | Projects => "projects"
  | Education => "education"
  | Languages => "languages"
  end.

(** A call to the repository, as the dashboard routes make them: items are
    added, edited and deleted in the four list sections, moved in any section
    named in the URL, and categories take lists of items. *)
Inductive profileCall : Type :=
  | AddItem (section : orderedName) (item : value)
  | UpdateItem (section : orderedName) (index : Z) (item : value)
  | RemoveItem (section : orderedName) (index : Z)
  | MoveItem (section : string) (index : Z) (direction : string)
  | OnSkills (c : skillCall)
  | AddInterestCategory (category : string) (items : list value) (interestType : value)
  | EditInterestCategory (oldCategory newCategory : string)
      (items : list value) (interestType : value)
  | RemoveInterestCategory (category : string).

Definition runProfileCall (st : store) (now : string) (c : profileCall) : result store :=
  match c with
  | AddItem section item => Ok (fst (addToSection st now (sectionName section) item))
  | UpdateItem section index item =>
      Ok (fst (updateInSection st now (sectionName section) index item))
  | RemoveItem section index =>
      Ok (fst (removeFromSection st now (sectionName section) index))
  | MoveItem section index direction =>
      Ok (fst (moveInSection st now section index direction))
  | OnSkills c => runSkillCall st now c
  | AddInterestCategory category items interestType =>
      r ← CvInterest.addInterestCategory st now category (VArr items) interestType;
      Ok (fst r)
  | EditInterestCategory oldCategory newCategory items interestType =>
      r ← CvInterest.editInterestCategory st now oldCategory newCategory
            (VArr items) interestType;
      Ok (fst r)
  | RemoveInterestCategory category =>
      r ← CvInterest.removeInterestCategory st now category; Ok (fst r)
  end.

Fixpoint runProfileCalls (st : store) (calls : list (string * profileCall))
  : result store :=
  match calls with
  | [] => Ok st
  | (now, c) :: rest => st' ← runProfileCall st now c; runProfileCalls st' rest
  end.

(** A category map and its classifiers: two maps over the same keys, all of
    whose values are truthy. *)
Definition alignedPair (data : obj) (items types : string) : Prop :=
  exists s t : obj,
    field data items = VObj s /\ field data types = VObj t
    /\ dom s = dom t /\ allTruthy s /\ allTruthy t.

Definition categoriesAligned (data : obj) : Prop :=
  alignedPair data "skills" "skillTypes" /\ alignedPair data "interests" "interestTypes".

(** A profile saved through the bulk form with a category "Go" whose
    classifier is the empty string. *)
Definition blankClassifier : store :=
  fst (saveCvData empty_store "t0"
         (<["skills" := VObj {[ "Go" := VArr [VStr "channels"] ]}]>
            (<["skillTypes" := VObj {[ "Go" := VStr "" ]}]> getDefaultCvData))).


(** *** The dashboard's category forms *)





(** *** The bulk form *)

(** What the bulk form keeps of the items of a category: a string split at
    its commas, a list as it is, nothing else. *)
Definition keptItems (trim : string -> string) (items : value) : option value :=
  match items with
  | VStr _ =>
      match Dashboard.parseCommaList trim items with
      | Ok l => Some (VArr l)
      | Throw _ => None
      end
  | VArr _ => Some items
  | _ => None
  end.

Definition allLists (m : obj) : Prop := map_Forall (fun _ v => isArray v = true) m.

(** The stored profile as the bulk form leaves it: four lists, and two
    category maps whose values are lists. *)
Definition bulkShape (st : store) : Prop :=
  isArray (stored st "experience") = true
  /\ isArray (stored st "projects") = true
  /\ isArray (stored st "education") = true
  /\ isArray (stored st "languages") = true
  /\ (exists s, stored st "skills" = VObj s /\ allLists s)
  /\ (exists i, stored st "interests" = VObj i /\ allLists i).

(** A bulk form with one skill category and no classifier for it. *)
Definition unclassifiedSkill : obj :=
  {[ "skills" := VObj {[ "Go" := VStr "channels,select" ]} ]}.

(** *** The page configuration *)

(** [typeof v === "object" && v !== null] *)
Definition isObject (v : value) : bool :=
  match v with
  | VArr _ | VObj _ => true
  | _ => false
  end.

(** The stored page configuration, if any, is typed as the data model has
    it: a layout of the enum, an object for the hero, lists for sections,
    sidebar and footer, null or an object for the identity. *)
Definition pageShape (st : store) : Prop :=
  match cvPageConfig st with
  | Some doc =>
      isValidLayout (field doc "layout") = true
      /\ isObject (field doc "hero") = true
      /\ isArray (field doc "sections") = true
      /\ isArray (field doc "sidebar") = true
      /\ isArray (field doc "footer") = true
      /\ (field doc "identity" = VNull \/ exists o, field doc "identity" = VObj o)
  | None => True
  end.

(** A social link as [parseSocialLinks] builds it: the four keys, a name or
    a url that is not blank, and a [rel]. *)
Definition socialLink (link : value) : Prop :=
  exists o : obj,
    link = VObj o
    /\ dom o = ({[ "name"; "url"; "rel"; "icon" ]} : gset string)
    /\ (truthy (field o "name") = true \/ truthy (field o "url") = true)
    /\ truthy (field o "rel") = true.

(** A form for the builder whose sections hold a null entry. *)
Definition nullSection : request :=
  {| body := {[ "layout" := VStr "two-column"; "sections" := VArr [VNull] ]};
     accept := None |}.

End RepositoryVocabulary.

(** * Properties *)

(** ** Reading fields of the documents built by the stores *)

Section Fields.
Import Cv.

Lemma field_insert (o : obj) (k : string) (v : value) :
  field (<[k := v]> o) k = v.
Proof. unfold field. by rewrite lookup_insert_eq. Qed.

Lemma field_insert_ne (o : obj) (k k' : string) (v : value) :
  k ≠ k' -> field (<[k := v]> o) k' = field o k'.
Proof. intros Hne. unfold field. by rewrite lookup_insert_ne. Qed.

Lemma cvDocument_interests now data :
  field (cvDocument now data) "interests"
  = migrateInterests (field data "interests") (field data "interestTypes").
Proof. unfold cvDocument, field. by simplify_map_eq. Qed.

End Fields.

(** ** Ordered sections *)

Section OrderedSections.
Import Cv.

Lemma cvDocument_ordered now data section l :
  orderedSection section ->
  field data section = VArr l ->
  field (cvDocument now data) section = VArr l.
Proof.
  unfold orderedSection. rewrite !elem_of_cons, elem_of_nil.
  intros [-> | [-> | [-> | [-> | []]]]] Hl;
    unfold cvDocument, field at 1; simplify_map_eq; by rewrite Hl.
Qed.

(** What [saveCvData] stores is what it returns, and it is exported. *)
Lemma saveCvData_stores st now data :
  cvData (fst (saveCvData st now data)) = Some (snd (saveCvData st now data))
  /\ snd (saveCvData st now data) = cvDocument now data
  /\ written (fst (saveCvData st now data))
     = ("cv.json", delete "_id" (cvDocument now data)) :: written st.
Proof. repeat split; reflexivity. Qed.

Lemma updateInSection_out_of_range st now section l index item :
  field (loadCvData st) section = VArr l ->
  ¬ (0 <= index < Z.of_nat (length l)) ->
  updateInSection st now section index item = saveCvData st now (loadCvData st).
Proof.
  intros Hl Hout. unfold updateInSection. rewrite Hl.
  destruct (0 <=? index) eqn:H0; [|done].
  destruct (index <? Z.of_nat (length l)) eqn:H1; [|done].
  exfalso. apply Hout. lia.
Qed.

Lemma removeFromSection_out_of_range st now section l index :
  field (loadCvData st) section = VArr l ->
  ¬ (0 <= index < Z.of_nat (length l)) ->
  removeFromSection st now section index = saveCvData st now (loadCvData st).
Proof.
  intros Hl Hout. unfold removeFromSection. rewrite Hl.
  destruct (0 <=? index) eqn:H0; [|done].
  destruct (index <? Z.of_nat (length l)) eqn:H1; [|done].
  exfalso. apply Hout. lia.
Qed.

(** Out of range, update and remove persist the loaded document as it is:
    an ordered section keeps its list. *)
Lemma update_remove_out_of_range_noop st now section l index item :
  orderedSection section ->
  field (loadCvData st) section = VArr l ->
  ¬ (0 <= index < Z.of_nat (length l)) ->
  field (snd (updateInSection st now section index item)) section = VArr l
  /\ field (snd (removeFromSection st now section index)) section = VArr l.
Proof.
  intros Hs Hl Hout.
  rewrite (updateInSection_out_of_range _ _ _ _ _ _ Hl Hout).
  rewrite (removeFromSection_out_of_range _ _ _ _ _ Hl Hout).
  split; by apply cvDocument_ordered.
Qed.

(** [moveInSection] checks the target only.  When the target is out of
    range too, nothing happens. *)
Lemma moveInSection_target_out_of_range st now section l index direction :
  field (loadCvData st) section = VArr l ->
  (let target := if String.eqb direction "up" then index - 1 else index + 1 in
   ¬ (0 <= target < Z.of_nat (length l))) ->
  moveInSection st now section index direction = (st, loadCvData st).
Proof.
  intros Hl Hout. unfold moveInSection. rewrite Hl. cbv zeta in Hout.
  set (target := if String.eqb direction "up" then index - 1 else index + 1) in *.
  destruct (target <? 0) eqn:H0; [done|].
  destruct (Z.of_nat (length l) <=? target) eqn:H1; [done|].
  exfalso. apply Hout. lia.
Qed.

Local Ltac decide_comparisons :=
  repeat match goal with
         | |- context [?a <? ?b] =>
             first [ rewrite (proj2 (Z.ltb_lt a b)) by lia
                   | rewrite (proj2 (Z.ltb_ge a b)) by lia ]
         | |- context [?a <=? ?b] =>
             first [ rewrite (proj2 (Z.leb_le a b)) by lia
                   | rewrite (proj2 (Z.leb_gt a b)) by lia ]
         end.

(** With the index one past the end and direction "up", the target is the
    last element: the swap writes it past the end and leaves [undefined] in
    its place.  The section grows by one. *)
Lemma moveInSection_past_end_up st now section l x :
  orderedSection section ->
  field (loadCvData st) section = VArr (l ++ [x]) ->
  field (snd (moveInSection st now section (Z.of_nat (length (l ++ [x]))) "up")) section
  = VArr (l ++ [VUndefined; x]).
Proof.
  intros Hs Hl. unfold moveInSection. rewrite Hl. simpl String.eqb. cbv iota.
  rewrite length_app. simpl length.
  replace (Z.of_nat (length l + 1) - 1) with (Z.of_nat (length l)) by lia.
  decide_comparisons. simpl orb. cbv iota.
  assert (Hlast : arr_get (l ++ [x]) (Z.of_nat (length l)) = x).
  { unfold arr_get. decide_comparisons. by rewrite Nat2Z.id, list_lookup_middle. }
  assert (Hpast : arr_get (l ++ [x]) (Z.of_nat (length l + 1)) = VUndefined).
  { unfold arr_get. decide_comparisons.
    rewrite Nat2Z.id, lookup_ge_None_2; [done|]. rewrite length_app. simpl. lia. }
  rewrite Hlast, Hpast.
  assert (Hgrow : arr_set (l ++ [x]) (Z.of_nat (length l + 1)) x = (l ++ [x; x])%list).
  { unfold arr_set. rewrite length_app. simpl length. decide_comparisons.
    rewrite Nat2Z.id, Nat.sub_diag. simpl. by rewrite <- app_assoc. }
  rewrite Hgrow.
  assert (Hswap : arr_set (l ++ [x; x]) (Z.of_nat (length l)) VUndefined
                  = (l ++ [VUndefined; x])%list).
  { unfold arr_set. rewrite length_app. simpl length. decide_comparisons.
    rewrite Nat2Z.id. replace (length l) with (length l + 0)%nat at 1 by lia.
    by rewrite insert_app_r. }
  rewrite Hswap. simpl snd.
  apply cvDocument_ordered; [done|]. apply field_insert.
Qed.

(** C1 (fails on the code).  An index one past the end with direction "up",
    or the index -1 with direction "down", has its target inside the list:
    [moveInSection] swaps the missing element in.  The list of two entries
    comes back, and is stored, with an [undefined] entry (which the database
    driver and the JSON export write as null). *)
Theorem moveInSection_index_out_of_range_changes_section :
  let up := moveInSection twoEntries "t1" "experience" 2 "up" in
  let down := moveInSection twoEntries "t1" "experience" (-1) "down" in
  field (loadCvData twoEntries) "experience" = VArr [VStr "a"; VStr "b"]
  /\ field (snd up) "experience" = VArr [VStr "a"; VUndefined; VStr "b"]
  /\ stored (fst up) "experience" = VArr [VStr "a"; VUndefined; VStr "b"]
  /\ field (snd down) "experience" = VArr [VUndefined; VStr "b"]
  /\ stored (fst down) "experience" = VArr [VUndefined; VStr "b"].
Proof. repeat split; vm_compute; reflexivity. Qed.

(** A call that reaches [saveCvData] is persisted. *)
Lemma saveCvData_persistedAt st now data :
  persistedAt st (fst (saveCvData st now data)) now.
Proof. split; [|done]. unfold stored, field. simpl. by simplify_map_eq. Qed.

(** C2 as stated fails: at either boundary of a two-entry section the call
    at [t1] persists nothing; the stored timestamp stays [t0]. *)
Lemma moveInSection_boundary_not_persisted :
  ¬ persistedAt twoEntries
      (fst (moveInSection twoEntries "t1" "experience" 0 "up")) "t1"
  /\ ¬ persistedAt twoEntries
      (fst (moveInSection twoEntries "t1" "experience" 1 "down")) "t1".
Proof. split; intros [Hstamp _]; vm_compute in Hstamp; discriminate Hstamp. Qed.

(** C2 (amended).  In a section holding a list of length [n >= 1], moving
    index 0 up or index [n-1] down returns the loaded document as it is and
    leaves the store untouched: the sequence is unchanged, nothing is
    persisted and no timestamp is stamped. *)
Theorem moveInSection_boundary_noop st now section l :
  field (loadCvData st) section = VArr l ->
  (1 <= length l)%nat ->
  moveInSection st now section 0 "up" = (st, loadCvData st)
  /\ moveInSection st now section (Z.of_nat (length l) - 1) "down"
     = (st, loadCvData st).
Proof.
  intros Hl Hn. split.
  - apply (moveInSection_target_out_of_range _ _ _ l); [done|]. simpl. lia.
  - apply (moveInSection_target_out_of_range _ _ _ l); [done|]. simpl. lia.
Qed.

Lemma moveInSection_boundary_noop_witness :
  moveInSection twoEntries "t1" "experience" 0 "up"
    = (twoEntries, loadCvData twoEntries)
  /\ moveInSection twoEntries "t1" "experience" (Z.of_nat 2 - 1) "down"
     = (twoEntries, loadCvData twoEntries).
Proof.
  apply (moveInSection_boundary_noop twoEntries "t1" "experience"
           [VStr "a"; VStr "b"]).
  - vm_compute. reflexivity.
  - simpl. lia.
Defined.

End OrderedSections.

(** ** Interests migration *)

Section Migration.
Import Cv.

Lemma migrateInterests_object interests interestTypes :
  exists o, migrateInterests interests interestTypes = VObj o.
Proof.
  unfold migrateInterests.
  destruct interests as [| |b|n|s|l|o]; simpl; eauto.
  - destruct b; simpl; eauto.
  - destruct (Z.eqb n 0); simpl; eauto.
  - destruct (String.eqb s ""); simpl; eauto.
  - destruct l; eauto.
Qed.

Lemma saveCvData_interestsCurrent st now data :
  interestsCurrent (fst (saveCvData st now data)).
Proof.
  unfold interestsCurrent, stored. simpl. rewrite cvDocument_interests.
  apply migrateInterests_object.
Qed.

(** The earlier revision stored a flat array as it was; the first persist
    by the current revision turns it into a category map. *)
Lemma legacy_document_migrated st now now' data l :
  field data "interests" = VArr l ->
  let legacy := snd (CvEarlier.saveCvData st now data) in
  field legacy "interests" = VArr l
  /\ interestsCurrent (fst (saveCvData st now' legacy)).
Proof.
  intros Hl legacy. split; [|apply saveCvData_interestsCurrent].
  unfold legacy, CvEarlier.saveCvData, CvEarlier.cvDocument, field at 1. simpl.
  simplify_map_eq. by rewrite Hl.
Qed.

Lemma withGroup_snoc category items x groups :
  withGroup category (items ++ [x]) groups = <[category := VArr (items ++ [x])]> groups.
Proof. by destruct items. Qed.

Lemma field_withGroup category items groups :
  groups !! category = None ->
  field (withGroup category items groups) category
  = match items with [] => VUndefined | _ => VArr items end.
Proof.
  intros Hnone. unfold field. destruct items; simpl.
  - by rewrite Hnone.
  - by rewrite lookup_insert_eq.
Qed.

Lemma lookup_withGroup_ne category category' items groups :
  category ≠ category' ->
  withGroup category items groups !! category' = groups !! category'.
Proof. intros Hne. destruct items; [done|]. simpl. by rewrite lookup_insert_ne. Qed.

Lemma field_withGroup_ne category category' items groups :
  category ≠ category' ->
  field (withGroup category items groups) category' = field groups category'.
Proof. intros Hne. destruct items; [done|]. simpl. by apply field_insert_ne. Qed.

Lemma insert_withGroup category items items' groups :
  <[category := VArr items']> (withGroup category items groups)
  = <[category := VArr items']> groups.
Proof. destruct items; [done|]. simpl. by rewrite insert_insert_eq. Qed.

Lemma insert_withGroup_ne category category' items items' groups :
  category ≠ category' ->
  <[category' := VArr items']> (withGroup category items groups)
  = withGroup category items (<[category' := VArr items']> groups).
Proof. intros Hne. destruct items; [done|]. simpl. by rewrite insert_insert_ne. Qed.

Lemma groupsOf_fold interestTypes items : forall pre,
  fold_left
    (fun (groups : obj) interest =>
       let type := js_or (prop (js_or interestTypes (VObj ∅)) (to_string interest))
                     (VStr "personal") in
       let category := if strict_eq_str type "work" then "Work" else "Personal" in
       let groups :=
         if negb (truthy (field groups category))
         then <[category := VArr []]> groups else groups in
       match field groups category with
       | VArr g => <[category := VArr (g ++ [interest])]> groups
       | _ => groups
       end)
    items (groupsOf interestTypes pre)
  = groupsOf interestTypes (pre ++ items).
Proof.
  induction items as [|i items IH]; intros pre.
  - by rewrite app_nil_r.
  - cbn [fold_left]. replace (pre ++ i :: items)%list with ((pre ++ [i]) ++ items)%list
      by (by rewrite <- app_assoc).
    rewrite <- IH. f_equal. cbv zeta.
    fold (classifier interestTypes i). fold (isWork interestTypes i).
    unfold groupsOf. rewrite !List.filter_app. cbn [List.filter].
    destruct (isWork interestTypes i) eqn:Hw; cbn [negb].
    + rewrite app_nil_r, withGroup_snoc.
      rewrite field_withGroup by (by rewrite lookup_withGroup_ne).
      destruct (List.filter (isWork interestTypes) pre) as [|w ws] eqn:Hpre.
      * cbn [truthy negb withGroup]. by rewrite field_insert, insert_insert_eq.
      * cbn [truthy negb]. rewrite field_withGroup by (by rewrite lookup_withGroup_ne).
        by rewrite insert_withGroup.
    + rewrite app_nil_r, withGroup_snoc.
      rewrite field_withGroup_ne by done. rewrite field_withGroup by done.
      destruct (List.filter (fun i => negb (isWork interestTypes i)) pre) as [|p ps] eqn:Hpre.
      * cbn [truthy negb]. rewrite field_insert.
        rewrite insert_insert_eq. by rewrite insert_withGroup_ne.
      * cbn [truthy negb]. rewrite field_withGroup_ne by done.
        rewrite field_withGroup by done.
        rewrite insert_withGroup_ne by done. by rewrite insert_withGroup.
Qed.

(** A non-empty legacy array is split into its "Work" and its "Personal"
    items, each group in encounter order. *)
Lemma migrateInterests_groups interestTypes x l :
  migrateInterests (VArr (x :: l)) interestTypes
  = VObj (groupsOf interestTypes (x :: l)).
Proof.
  unfold migrateInterests. cbn [truthy negb]. cbv iota. f_equal.
  apply (groupsOf_fold interestTypes (x :: l) []).
Qed.

Local Ltac by_cases_on_results :=
  repeat match goal with
         | |- context [deleteIfSet ?c ?m ?k] => destruct (deleteIfSet c m k); simpl
         | |- context [set_prop ?m ?k ?v] => destruct (set_prop m k v); simpl
         end;
  try done; apply saveCvData_interestsCurrent.

(** C3.  Whatever [data] holds, the document [saveCvData] returns and
    stores has a category map (never an array) under [interests]; and
    every repository operation that persists does so through
    [saveCvData], hence leaves a category map in the store. *)
Theorem saveCvData_interests_map_shaped :
  (forall st now data,
      exists o, field (snd (saveCvData st now data)) "interests" = VObj o
                /\ stored (fst (saveCvData st now data)) "interests" = VObj o
                /\ isArray (field (snd (saveCvData st now data)) "interests") = false)
  /\ (forall st now section item,
        interestsCurrent (fst (addToSection st now section item)))
  /\ (forall st now section index item,
        interestsCurrent (fst (updateInSection st now section index item)))
  /\ (forall st now section index,
        interestsCurrent (fst (removeFromSection st now section index)))
  /\ (forall st now section index direction,
        fst (moveInSection st now section index direction) = st
        \/ interestsCurrent (fst (moveInSection st now section index direction)))
  /\ (forall st now category items skillType,
        match addSkillCategory st now category items skillType with
        | Ok r => interestsCurrent (fst r)
        | Throw _ => True
        end)
  /\ (forall st now oldCategory newCategory items skillType,
        match editSkillCategory st now oldCategory newCategory items skillType with
        | Ok r => interestsCurrent (fst r)
        | Throw _ => True
        end)
  /\ (forall st now category,
        match removeSkillCategory st now category with
        | Ok r => interestsCurrent (fst r)
        | Throw _ => True
        end).
Proof.
  repeat split.
  - intros st now data.
    destruct (migrateInterests_object (field data "interests")
                (field data "interestTypes")) as [o Ho].
    exists o. unfold stored. simpl. rewrite cvDocument_interests, Ho. done.
  - intros. unfold addToSection.
    destruct (field _ section); apply saveCvData_interestsCurrent.
  - intros. unfold updateInSection.
    destruct (field _ section); try apply saveCvData_interestsCurrent.
    destruct (_ && _); apply saveCvData_interestsCurrent.
  - intros. unfold removeFromSection.
    destruct (field _ section); try apply saveCvData_interestsCurrent.
    destruct (_ && _); apply saveCvData_interestsCurrent.
  - intros. unfold moveInSection.
    destruct (field _ section); try (by left).
    destruct (_ || _); [by left|]. right. apply saveCvData_interestsCurrent.
  - intros. unfold addSkillCategory. by_cases_on_results.
  - intros. unfold editSkillCategory. by_cases_on_results.
  - intros. unfold removeSkillCategory. by_cases_on_results.
Qed.

Lemma migrateInterests_current o interestTypes :
  migrateInterests (VObj o) interestTypes = VObj o.
Proof. reflexivity. Qed.

Lemma migrateInterestTypes_current o interestTypes :
  migrateInterestTypes (VObj o) interestTypes
  = if String.eqb (typeof interestTypes) "object" then interestTypes else VObj ∅.
Proof. reflexivity. Qed.

Lemma migrateInterestTypes_typeof interests interestTypes :
  typeof (migrateInterestTypes interests interestTypes) = "object".
Proof.
  unfold migrateInterestTypes.
  destruct (negb (truthy interests)); [done|].
  destruct interests as [| |b|n|s|l|o];
    try (destruct interestTypes; done).
  by destruct l.
Qed.

(** C5.  Running both migration functions on their own output gives that
    output back; this holds for every input pair, the legacy pair of an
    interests array and an interestTypes map included. *)
Theorem migration_idempotent interests interestTypes :
  let interests' := migrateInterests interests interestTypes in
  let interestTypes' := migrateInterestTypes interests interestTypes in
  migrateInterests interests' interestTypes' = interests'
  /\ migrateInterestTypes interests' interestTypes' = interestTypes'.
Proof.
  intros interests' interestTypes'.
  destruct (migrateInterests_object interests interestTypes) as [o Ho].
  subst interests'. rewrite Ho. split.
  - apply migrateInterests_current.
  - rewrite migrateInterestTypes_current. subst interestTypes'.
    by rewrite migrateInterestTypes_typeof.
Qed.

(** C6.  The legacy pair ["Chess", "Docker"] with {"Docker": "work"}
    migrates to {"Personal": ["Chess"], "Work": ["Docker"]} and
    {"Personal": "personal", "Work": "work"}: "Chess" has no classifier and
    goes under "Personal", "Docker" goes under "Work". *)
Theorem migration_groups_chess_docker :
  let interests := VArr [VStr "Chess"; VStr "Docker"] in
  let interestTypes := VObj {[ "Docker" := VStr "work" ]} in
  migrateInterests interests interestTypes
    = VObj {[ "Personal" := VArr [VStr "Chess"]; "Work" := VArr [VStr "Docker"] ]}
  /\ migrateInterestTypes interests interestTypes
    = VObj {[ "Personal" := VStr "personal"; "Work" := VStr "work" ]}.
Proof. split; vm_compute; reflexivity. Qed.

(** C7 (fails on the code).  With map-shaped interests, the test
    [typeof interestTypes === "object"] lets [null] and arrays through:
    they are returned as they are, not replaced by the empty map.  A map
    passes through and a string is reset, as claimed. *)
Theorem migrateInterestTypes_null_and_array_pass_through o :
  migrateInterestTypes (VObj o) VNull = VNull
  /\ (forall l, migrateInterestTypes (VObj o) (VArr l) = VArr l)
  /\ (forall types, migrateInterestTypes (VObj o) (VObj types) = VObj types)
  /\ (forall s, migrateInterestTypes (VObj o) (VStr s) = VObj ∅).
Proof. repeat split. Qed.

End Migration.

(** ** Skill categories *)

Section SkillCategories.
Import Cv.

Lemma skillsInv_aligned data : skillsInv data -> keysAligned data.
Proof.
  intros (s & t & Hs & Ht & Hd & _). exists s, t. unfold field.
  by rewrite Hs, Ht.
Qed.

Lemma skillsInv_default : skillsInv getDefaultCvData.
Proof.
  exists ∅, ∅. unfold getDefaultCvData.
  repeat split; try by simplify_map_eq.
  all: apply map_Forall_empty.
Qed.

Lemma skillsInv_cvDocument now data s t :
  field data "skills" = VObj s -> field data "skillTypes" = VObj t ->
  dom s = dom t -> allTruthy s -> allTruthy t ->
  skillsInv (cvDocument now data).
Proof.
  intros Hs Ht Hd Hts Htt. exists s, t. unfold cvDocument.
  rewrite Hs, Ht. repeat split; try done; by simplify_map_eq.
Qed.

Lemma truthy_js_or_personal v : truthy (js_or v (VStr "personal")) = true.
Proof. unfold js_or. by destruct (truthy v) eqn:E. Qed.

Lemma deleteIfSet_object cond (m : obj) k :
  allTruthy m ->
  deleteIfSet cond (VObj m) k = Ok (VObj (if cond then delete k m else m)).
Proof.
  intros Hm. unfold deleteIfSet. destruct cond; [|done]. simpl.
  unfold field. destruct (m !! k) as [v|] eqn:Hk; simpl.
  - by rewrite (Hm k v Hk).
  - by rewrite delete_id.
Qed.

Lemma storeInv_saveCvData st now data s t :
  field data "skills" = VObj s -> field data "skillTypes" = VObj t ->
  dom s = dom t -> allTruthy s -> allTruthy t ->
  storeInv (fst (saveCvData st now data)).
Proof. intros. unfold storeInv, loadCvData. simpl. by eapply skillsInv_cvDocument. Qed.

Lemma resetUnlessObject_object (m : obj) : resetUnlessObject (VObj m) = VObj m.
Proof. reflexivity. Qed.

Local Arguments deleteIfSet : simpl never.

Local Ltac read_fields Hfs Hft :=
  repeat first
    [ rewrite Hfs | rewrite Hft | rewrite resetUnlessObject_object
    | rewrite field_insert | rewrite field_insert_ne by done
    | progress simpl ].

Lemma runSkillCall_preserves st now c :
  storeInv st -> exists st', runSkillCall st now c = Ok st' /\ storeInv st'.
Proof.
  intros (s & t & Hs & Ht & Hd & Hts & Htt).
  assert (Hfs : field (loadCvData st) "skills" = VObj s)
    by (unfold field; by rewrite Hs).
  assert (Hft : field (loadCvData st) "skillTypes" = VObj t)
    by (unfold field; by rewrite Ht).
  destruct c as [category items skillType
                | oldCategory newCategory items skillType
                | category]; simpl.
  - unfold addSkillCategory. read_fields Hfs Hft.
    eexists. split; [reflexivity|].
    eapply (storeInv_saveCvData _ _ _ (<[category := VArr items]> s)
              (<[category := js_or skillType (VStr "personal")]> t)).
    + by rewrite field_insert_ne, field_insert.
    + by rewrite field_insert.
    + by rewrite !dom_insert_L, Hd.
    + by apply map_Forall_insert_2.
    + apply map_Forall_insert_2; [apply truthy_js_or_personal|done].
  - unfold editSkillCategory. read_fields Hfs Hft.
    rewrite !deleteIfSet_object by done. simpl.
    eexists. split; [reflexivity|].
    set (renamed := negb (String.eqb oldCategory newCategory)).
    eapply (storeInv_saveCvData _ _ _
              (<[newCategory := VArr items]> (if renamed then delete oldCategory s else s))
              (<[newCategory := js_or skillType (VStr "personal")]>
                 (if renamed then delete oldCategory t else t))).
    + by rewrite field_insert_ne, field_insert.
    + by rewrite field_insert.
    + rewrite !dom_insert_L. destruct renamed; [|by rewrite Hd].
      by rewrite !dom_delete_L, Hd.
    + apply map_Forall_insert_2; [done|].
      destruct renamed; [by apply map_Forall_delete|done].
    + apply map_Forall_insert_2; [apply truthy_js_or_personal|].
      destruct renamed; [by apply map_Forall_delete|done].
  - unfold removeSkillCategory. read_fields Hfs Hft.
    rewrite !deleteIfSet_object by done. read_fields Hfs Hft.
    eexists. split; [reflexivity|].
    eapply (storeInv_saveCvData _ _ _ (delete category s) (delete category t)).
    + by rewrite field_insert_ne, field_insert.
    + by rewrite field_insert.
    + by rewrite !dom_delete_L, Hd.
    + by apply map_Forall_delete.
    + by apply map_Forall_delete.
Qed.

Lemma runSkillCalls_preserve calls : forall st,
  storeInv st -> exists st', runSkillCalls st calls = Ok st' /\ storeInv st'.
Proof.
  induction calls as [|[now c] rest IH]; intros st Hst; simpl.
  - by exists st.
  - destruct (runSkillCall_preserves st now c Hst) as (st1 & -> & Hst1). simpl.
    by apply IH.
Qed.

(** Add "Tools", rename it to "Languages", then remove a category that
    does not exist: one category is left, under both maps. *)
Example skill_calls_rename :
  match runSkillCalls empty_store
          [("t1", AddSkillCategory "Tools" [VStr "git"] VUndefined);
           ("t2", EditSkillCategory "Tools" "Languages" [VStr "JS"] (VStr "work"));
           ("t3", RemoveSkillCategory "Databases")] with
  | Ok st =>
      stored st "skills" = VObj {[ "Languages" := VArr [VStr "JS"] ]}
      /\ stored st "skillTypes" = VObj {[ "Languages" := VStr "work" ]}
      /\ stored st "lastUpdated" = VStr "t3"
  | Throw _ => False
  end.
Proof. vm_compute. repeat split; reflexivity. Qed.

(** C8.  From the default empty profile, every finite sequence of
    [addSkillCategory], [editSkillCategory] and [removeSkillCategory]
    calls with list-valued items runs without an error, and in the
    resulting document the key set of [skills] equals that of
    [skillTypes]. *)
Theorem skill_keys_aligned calls :
  exists st', runSkillCalls empty_store calls = Ok st'
              /\ keysAligned (loadCvData st').
Proof.
  destruct (runSkillCalls_preserve calls empty_store) as (st' & Hrun & Hinv).
  - apply skillsInv_default.
  - exists st'. split; [done|]. by apply skillsInv_aligned.
Qed.

End SkillCategories.

(** ** Preset matcher *)

Section PresetMatcher.
Import CvPageConfig PageBuilder.

(** *** Joining section types with commas *)

Lemma hasComma_append a b : hasComma (a +:+ b) = hasComma a || hasComma b.
Proof. induction a as [|c a IH]; simpl; [done|]. rewrite IH. by rewrite orb_assoc. Qed.

Lemma append_comma_inj x : forall y r1 r2,
  hasComma x = false -> hasComma y = false ->
  x +:+ "," +:+ r1 = y +:+ "," +:+ r2 -> x = y /\ r1 = r2.
Proof.
  induction x as [|c x IH]; intros [|d y] r1 r2 Hx Hy Heq; simpl in *.
  - by inversion Heq.
  - inversion Heq; subst. by rewrite Ascii.eqb_refl in Hy.
  - inversion Heq; subst. by rewrite Ascii.eqb_refl in Hx.
  - inversion Heq; subst.
    apply orb_false_iff in Hx as [_ Hx]. apply orb_false_iff in Hy as [_ Hy].
    destruct (IH y r1 r2 Hx Hy) as [-> ->]; done.
Qed.

Lemma concat_cons_cons x y l :
  String.concat "," (x :: y :: l) = x +:+ "," +:+ String.concat "," (y :: l).
Proof. reflexivity. Qed.

Lemma concat_clean_nonempty x l : cleanType x -> String.concat "," (x :: l) ≠ "".
Proof.
  intros [Hx _]. destruct l as [|y l].
  - done.
  - rewrite concat_cons_cons. destruct x; [done|]. simpl. discriminate.
Qed.

Lemma concat_comma_inj l1 : forall l2,
  Forall cleanType l1 -> Forall cleanType l2 ->
  String.concat "," l1 = String.concat "," l2 -> l1 = l2.
Proof.
  induction l1 as [|x l1 IH]; intros [|y l2] H1 H2 Heq.
  - done.
  - apply Forall_cons in H2 as [Hy _]. symmetry in Heq.
    by apply concat_clean_nonempty in Heq.
  - apply Forall_cons in H1 as [Hx _]. by apply concat_clean_nonempty in Heq.
  - apply Forall_cons in H1 as [[_ Hx] H1]. apply Forall_cons in H2 as [[_ Hy] H2].
    destruct l1 as [|x' l1], l2 as [|y' l2].
    + simpl in Heq. by subst.
    + rewrite concat_cons_cons in Heq.
      change (String.concat "," [x]) with x in Heq. subst x.
      rewrite hasComma_append in Hx. simpl in Hx. by rewrite orb_true_r in Hx.
    + rewrite concat_cons_cons in Heq.
      change (String.concat "," [y]) with y in Heq. subst y.
      rewrite hasComma_append in Hy. simpl in Hy. by rewrite orb_true_r in Hy.
    + rewrite !concat_cons_cons in Heq.
      apply append_comma_inj in Heq as [-> Heq]; [|done..].
      f_equal. by apply IH.
Qed.

(** *** The structural fingerprint *)

Lemma strict_eq_str_spec v s : strict_eq_str v s = true <-> v = VStr s.
Proof.
  destruct v; simpl; try (split; [discriminate|intros; discriminate]).
  rewrite String.eqb_eq. split; [by intros ->|by intros [= ->]].
Qed.

Lemma structuralMatchb_spec config p :
  structuralMatchb config p = true <-> structuralMatch config p.
Proof.
  unfold structuralMatchb, structuralMatch.
  rewrite !andb_true_iff, !bool_decide_eq_true, strict_eq_str_spec. tauto.
Qed.

Lemma join_strings ts : join "," (map VStr ts) = String.concat "," ts.
Proof. unfold join. rewrite map_map. simpl. by rewrite map_id. Qed.

Lemma preset_types_concat es : preset_types es = String.concat "," (map type es).
Proof. unfold preset_types. by rewrite <- join_strings, map_map. Qed.

Lemma types_of_entryTypes v ts :
  entryTypes v = Some ts -> types_of v = Ok (map VStr ts).
Proof.
  unfold entryTypes, types_of. destruct (js_or v (VArr [])) as [| | | | |l|]; try done.
  revert ts. induction l as [|x l IH]; intros ts Hts; simpl in *.
  - by injection Hts as <-.
  - destruct (entryType x) as [t|] eqn:Hx; simpl in Hts; [|done].
    destruct (mapM entryType l) as [ts'|] eqn:Hl; simpl in Hts; [|done].
    injection Hts as <-.
    destruct x as [| | | | | |o]; try done. simpl in Hx.
    destruct (o !! "type") as [[| | | |t'| |]|] eqn:Ho; try done.
    injection Hx as ->. simpl. unfold field. rewrite Ho. simpl.
    fold (mapM (M := result) (fun s => get_prop s "type") l).
    by rewrite (IH ts').
Qed.

Lemma joined_types_equal v ts es :
  entryTypes v = Some ts ->
  Forall cleanType ts -> Forall cleanType (map type es) ->
  String.eqb (join "," (map VStr ts)) (preset_types es)
  = bool_decide (entryTypes v = Some (map type es)).
Proof.
  intros -> Hts Hes. rewrite join_strings, preset_types_concat.
  destruct (String.eqb_spec (String.concat "," ts) (String.concat "," (map type es)))
    as [Heq|Hne].
  - apply concat_comma_inj in Heq; [|done..]. rewrite Heq. by rewrite bool_decide_eq_true_2.
  - rewrite bool_decide_eq_false_2; [done|]. intros [= ->]. by apply Hne.
Qed.

Lemma detectActivePreset_clean config presets ts ws :
  entryTypes (field config "sections") = Some ts -> Forall cleanType ts ->
  entryTypes (field config "sidebar") = Some ws -> Forall cleanType ws ->
  Forall cleanPreset presets ->
  detectActivePreset config presets = Ok (firstStructuralMatch config presets).
Proof.
  intros Hs Hts Hw Hws Hps. unfold firstStructuralMatch.
  induction presets as [|p rest IH]; [done|].
  apply Forall_cons in Hps as [[Hp1 Hp2] Hps]. specialize (IH Hps).
  simpl. unfold structuralMatchb.
  destruct (strict_eq_str (field config "layout") (layout p)); simpl; [|done].
  rewrite (types_of_entryTypes _ _ Hs). simpl.
  rewrite (joined_types_equal _ ts (sections p) Hs) by done.
  case_bool_decide; simpl; [|done].
  rewrite (types_of_entryTypes _ _ Hw). simpl.
  rewrite (joined_types_equal _ ws (sidebar p) Hw) by done.
  by case_bool_decide.
Qed.

Lemma find_first {A} (f : A -> bool) (l : list A) (x : A) :
  find f l = Some x
  <-> exists before after : list A,
        l = (before ++ x :: after)%list /\ f x = true
        /\ forall y, y ∈ before -> f y = false.
Proof.
  induction l as [|a l IH]; simpl.
  - split; [done|]. intros (before & after & Heq & _). by destruct before.
  - destruct (f a) eqn:Ha.
    + split.
      * intros [= ->]. exists [], l. repeat split; [done|]. intros y Hy. by inversion Hy.
      * intros ([|b before] & after & Heq & Hx & Hbefore).
        -- by injection Heq as ->.
        -- injection Heq as -> _. rewrite Hbefore in Ha; [done|]. apply elem_of_cons. by left.
    + rewrite IH. split.
      * intros (before & after & -> & Hx & Hbefore).
        exists (a :: before), after. repeat split; [done|].
        intros y [->|Hy]%elem_of_cons; [done|by apply Hbefore].
      * intros ([|b before] & after & Heq & Hx & Hbefore).
        -- injection Heq as ->. by rewrite Hx in Ha.
        -- injection Heq as -> ->. exists before, after. repeat split; [done|].
           intros y Hy. apply Hbefore. apply elem_of_cons. by right.
Qed.

(** Only the layout and the [type] of each entry are read: two
    configurations that agree on these are matched alike, whatever the
    [config] payload of their entries. *)
Lemma detectActivePreset_reads_types_only config config' presets :
  field config "layout" = field config' "layout" ->
  types_of (field config "sections") = types_of (field config' "sections") ->
  types_of (field config "sidebar") = types_of (field config' "sidebar") ->
  detectActivePreset config presets = detectActivePreset config' presets.
Proof.
  intros Hl Hs Hw. induction presets as [|p rest IH]; [done|].
  simpl. by rewrite Hl, Hs, Hw, IH.
Qed.

(** C4 as stated fails: the matcher compares the comma-joined types, so
    [commaConfig], whose sequence of section types has length one, is
    reported as the "minimal" preset although no preset of the catalog has
    its sequence of section types. *)
Lemma detectActivePreset_joined_types_counterexample :
  detectActivePreset commaConfig getCvPresets = Ok (Some "minimal")
  /\ forall p, p ∈ getCvPresets -> ¬ structuralMatch commaConfig p.
Proof.
  split; [vm_compute; reflexivity|].
  intros p Hp (_ & Hs & _). unfold getCvPresets in Hp.
  rewrite !elem_of_cons, elem_of_nil in Hp.
  destruct Hp as [-> | [-> | [-> | []]]]; vm_compute in Hs; discriminate Hs.
Qed.

(** C4 (amended).  When every section and sidebar entry of the
    configuration is an object whose type is a non-empty string without a
    comma, and so are the types of the presets, [detectActivePreset] returns
    the identifier of the first preset in catalog order with the same layout,
    the same sequence of section types and the same sequence of sidebar
    types, and null exactly when no preset matches. *)
Theorem detectActivePreset_first_structural_match config presets ts ws :
  entryTypes (field config "sections") = Some ts -> Forall cleanType ts ->
  entryTypes (field config "sidebar") = Some ws -> Forall cleanType ws ->
  Forall cleanPreset presets ->
  detectActivePreset config presets = Ok (firstStructuralMatch config presets)
  /\ (forall i,
        detectActivePreset config presets = Ok (Some i)
        <-> exists (before : list Preset) p after,
              presets = (before ++ p :: after)%list /\ id p = i
              /\ structuralMatch config p
              /\ forall q, q ∈ before -> ¬ structuralMatch config q)
  /\ (detectActivePreset config presets = Ok None
      <-> forall p, p ∈ presets -> ¬ structuralMatch config p).
Proof.
  intros Hs Hts Hw Hws Hps.
  rewrite (detectActivePreset_clean config presets ts ws) by done.
  unfold firstStructuralMatch. split; [done|]. split.
  - intros i. split.
    + intros [= Hfind].
      destruct (find (structuralMatchb config) presets) as [p|] eqn:Hp; [|done].
      injection Hfind as <-.
      apply find_first in Hp as (before & after & -> & Hm & Hbefore).
      exists before, p, after. repeat split; try by apply structuralMatchb_spec.
      intros q Hq Hmatch%structuralMatchb_spec. by rewrite Hbefore in Hmatch.
    + intros (before & p & after & -> & <- & Hm & Hbefore).
      assert (find (structuralMatchb config) (before ++ p :: after)%list = Some p) as ->; [|done].
      apply find_first. exists before, after. repeat split; [by apply structuralMatchb_spec|].
      intros q Hq. destruct (structuralMatchb config q) eqn:Hmatch; [|done].
      by apply structuralMatchb_spec, Hbefore in Hmatch.
  - split.
    + intros [= Hfind] p Hp Hmatch%structuralMatchb_spec.
      destruct (find (structuralMatchb config) presets) eqn:Hf; [done|].
      apply list_elem_of_In in Hp. by rewrite (find_none _ _ Hf p Hp) in Hmatch.
    + intros Hnone.
      destruct (find (structuralMatchb config) presets) as [p|] eqn:Hp; [|done].
      apply find_some in Hp as [Hin Hmatch]. apply list_elem_of_In in Hin.
      by apply structuralMatchb_spec, Hnone in Hmatch.
Qed.

Lemma detectActivePreset_first_structural_match_witness :
  detectActivePreset getDefaultConfig getCvPresets = Ok (Some "professional-cv").
Proof.
  destruct (detectActivePreset_first_structural_match getDefaultConfig getCvPresets
              ["cv-experience-work"; "cv-skills-work"; "cv-projects-work";
               "cv-education-work"; "cv-languages"; "cv-interests-work"] [])
    as [Hfirst _].
  - vm_compute. reflexivity.
  - repeat (constructor; [by split|]). constructor.
  - vm_compute. reflexivity.
  - constructor.
  - repeat (constructor; [split; simpl; repeat (constructor; [by split|]); constructor|]).
    constructor.
  - rewrite Hfirst. vm_compute. reflexivity.
Defined.

End PresetMatcher.

(** ** Page configuration *)

Section PageConfiguration.
Import CvPageConfig PageBuilder.

Lemma configDocument_literal now l h s w f i :
  configDocument now
    {[ "layout" := l; "hero" := h; "sections" := s; "sidebar" := w;
       "footer" := f; "identity" := i ]}
  = {[ "_id" := VStr "cv-page";
       "layout" := js_or l (VStr "single-column");
       "hero" := js_or h defaultHero;
       "sections" := js_or s (VArr []);
       "sidebar" := js_or w (VArr []);
       "footer" := js_or f (VArr []);
       "identity" := js_or i VNull;
       "updatedAt" := VStr now ]}.
Proof. unfold configDocument, field. by simplify_map_eq. Qed.

Lemma isValidLayout_spec v :
  isValidLayout v = true
  <-> v = VStr "single-column" \/ v = VStr "two-column" \/ v = VStr "full-width-hero".
Proof.
  unfold isValidLayout, validLayouts. simpl.
  rewrite !orb_true_iff, !strict_eq_str_spec. intuition discriminate.
Qed.

Lemma isValidLayout_kept v :
  isValidLayout v = true -> js_or v (VStr "single-column") = v.
Proof. rewrite isValidLayout_spec. by intros [-> | [-> | ->]]. Qed.

Lemma js_or_array v d : isArray v = true -> js_or v d = v.
Proof. by destruct v. Qed.

Lemma coerceLayout_valid layout : isValidLayout (coerceLayout layout) = true.
Proof. unfold coerceLayout. by destruct (isValidLayout layout) eqn:E. Qed.

Lemma catalog_layout_valid p :
  In p getCvPresets -> isValidLayout (VStr (layout p)) = true.
Proof. simpl. intros [<- | [<- | [<- | []]]]; reflexivity. Qed.

Lemma js_or_object o d : js_or (VObj o) d = VObj o.
Proof. reflexivity. Qed.

Lemma js_or_list l d : js_or (VArr l) d = VArr l.
Proof. reflexivity. Qed.

Lemma carried_footer st :
  configShape st ->
  js_or (js_or (current (getConfig st) "footer") (VArr [])) (VArr []) = carriedFooter st.
Proof.
  unfold configShape, carriedFooter, getConfig, current.
  destruct (cvPageConfig st) as [doc|]; [|done].
  intros [Hf _]. by rewrite !(js_or_array _ _ Hf).
Qed.

Lemma carried_identity st :
  configShape st ->
  js_or (js_or (current (getConfig st) "identity") VNull) VNull = carriedIdentity st.
Proof.
  unfold configShape, carriedIdentity, getConfig, current.
  destruct (cvPageConfig st) as [doc|]; [|done].
  intros [_ [-> | [o ->]]]; done.
Qed.

Variable JSON_parse : string -> result value.
Variable cvEndpoint : string.

Lemma save_layout st now r :
  if bodyParses JSON_parse r
  then exists doc,
         cvPageConfig (fst (save JSON_parse cvEndpoint st now r)) = Some doc
         /\ field doc "layout" = coerceLayout (field (body r) "layout")
  else fst (save JSON_parse cvEndpoint st now r) = st.
Proof.
  unfold bodyParses, parses, save.
  destruct (parseIfString JSON_parse (field (body r) "hero")); simpl; [|done].
  destruct (parseIfString JSON_parse (field (body r) "sections")); simpl; [|done].
  destruct (parseIfString JSON_parse (field (body r) "sidebar")); simpl; [|done].
  destruct (parseIfString JSON_parse (field (body r) "footer")); simpl; [|done].
  eexists. split; [reflexivity|].
  rewrite configDocument_literal. unfold field. simplify_map_eq.
  apply isValidLayout_kept, coerceLayout_valid.
Qed.

Lemma applyPreset_known st now r preset :
  find (fun p => strict_eq_str (field (body r) "presetId") (id p)) getCvPresets
    = Some preset ->
  fst (applyPreset cvEndpoint st now r)
  = writeConfigFile
      (Store (cvData st)
         (Some (configDocument now
            {[ "layout" := VStr (layout preset);
               "hero" := VObj (hero preset);
               "sections" := VArr (map entry_value (sections preset));
               "sidebar" := VArr (map entry_value (sidebar preset));
               "footer" := js_or (current (getConfig st) "footer") (VArr []);
               "identity" := js_or (current (getConfig st) "identity") VNull ]}))
         (written st))
      (configDocument now
            {[ "layout" := VStr (layout preset);
               "hero" := VObj (hero preset);
               "sections" := VArr (map entry_value (sections preset));
               "sidebar" := VArr (map entry_value (sidebar preset));
               "footer" := js_or (current (getConfig st) "footer") (VArr []);
               "identity" := js_or (current (getConfig st) "identity") VNull ]}).
Proof. intros Hfind. unfold applyPreset. by rewrite Hfind. Qed.

Lemma runPageCall_layoutValid st now c :
  layoutValid st -> layoutValid (runPageCall JSON_parse cvEndpoint st now c).
Proof.
  intros Hst. destruct c as [r|r|r]; unfold runPageCall.
  - pose proof (save_layout st now r) as Hsave.
    destruct (bodyParses JSON_parse r); [|by rewrite Hsave].
    destruct Hsave as (doc & Hdoc & Hl).
    unfold layoutValid. rewrite Hdoc, Hl. apply coerceLayout_valid.
  - destruct (find (fun p => strict_eq_str (field (body r) "presetId") (id p))
                getCvPresets) as [preset|] eqn:Hfind.
    + rewrite (applyPreset_known _ _ _ _ Hfind).
      apply find_some in Hfind as [Hin _]. apply catalog_layout_valid in Hin.
      unfold layoutValid, writeConfigFile, cvPageConfig.
      rewrite configDocument_literal. unfold field at 1. simplify_map_eq.
      by rewrite (isValidLayout_kept _ Hin).
    + unfold applyPreset. by rewrite Hfind.
  - unfold saveIdentity, layoutValid. simpl.
    rewrite configDocument_literal. unfold field at 1. simplify_map_eq.
    unfold layoutValid, getConfig in *.
    destruct (cvPageConfig st) as [doc|]; simpl; [|done].
    by rewrite !(isValidLayout_kept _ Hst).
Qed.

Lemma runPageCalls_layoutValid calls : forall st,
  layoutValid st -> layoutValid (runPageCalls JSON_parse cvEndpoint st calls).
Proof.
  induction calls as [|[now c] calls IH]; intros st Hst; [done|].
  apply IH. by apply runPageCall_layoutValid.
Qed.

(** C9.  When [save] persists (it does unless [JSON.parse] threw, in
    which case the store is left as it was), the stored layout is the
    supplied one if it belongs to {single-column, two-column,
    full-width-hero} and "single-column" otherwise; and after any sequence of
    save, apply-preset and save-identity requests on an empty store, the
    stored layout belongs to the enum. *)
Theorem saved_layout_in_enum :
  (forall st now r,
      if bodyParses JSON_parse r
      then exists doc,
             cvPageConfig (fst (save JSON_parse cvEndpoint st now r)) = Some doc
             /\ field doc "layout"
                = (if isValidLayout (field (body r) "layout")
                   then field (body r) "layout" else VStr "single-column")
             /\ isValidLayout (field doc "layout") = true
      else fst (save JSON_parse cvEndpoint st now r) = st)
  /\ (forall calls, layoutValid (runPageCalls JSON_parse cvEndpoint empty_store calls)).
Proof.
  split.
  - intros st now r. pose proof (save_layout st now r) as Hsave.
    destruct (bodyParses JSON_parse r); [|done].
    destruct Hsave as (doc & Hdoc & Hl).
    exists doc. repeat split; [done..|]. rewrite Hl. apply coerceLayout_valid.
  - intros calls. by apply runPageCalls_layoutValid.
Qed.

(** Every configuration written by the controllers has that shape. *)
Lemma runPageCall_configShape st now c :
  configShape st -> configShape (runPageCall JSON_parse cvEndpoint st now c).
Proof.
  intros Hst. destruct c as [r|r|r]; unfold runPageCall.
  - unfold save.
    destruct (parseIfString JSON_parse (field (body r) "hero")); simpl; [|done].
    destruct (parseIfString JSON_parse (field (body r) "sections")); simpl; [|done].
    destruct (parseIfString JSON_parse (field (body r) "sidebar")); simpl; [|done].
    destruct (parseIfString JSON_parse (field (body r) "footer")) as [f|]; simpl; [|done].
    unfold configShape. simpl. rewrite configDocument_literal.
    unfold field at 1 2 3. simplify_map_eq. split.
    + by destruct (isArray f) eqn:Hf; [rewrite (js_or_array _ _ Hf)|].
    + pose proof (carried_identity st Hst) as Hid.
      unfold configShape, carriedIdentity, getConfig, current in *.
      destruct (cvPageConfig st) as [doc|]; [|by left].
      rewrite Hid. apply Hst.
  - destruct (find (fun p => strict_eq_str (field (body r) "presetId") (id p))
                getCvPresets) as [preset|] eqn:Hfind.
    + rewrite (applyPreset_known _ _ _ _ Hfind).
      unfold configShape, writeConfigFile, cvPageConfig.
      rewrite configDocument_literal. unfold field at 1 2 3. simplify_map_eq.
      rewrite (carried_footer st Hst), (carried_identity st Hst).
      unfold configShape, carriedFooter, carriedIdentity in *.
      destruct (cvPageConfig st) as [doc|]; [done|]. split; [done|by left].
    + unfold applyPreset. by rewrite Hfind.
  - unfold saveIdentity, configShape. simpl. rewrite configDocument_literal.
    unfold field at 1 2 3. simplify_map_eq. split; [|right; eauto].
    rewrite (carried_footer st Hst).
    unfold configShape, carriedFooter in *.
    destruct (cvPageConfig st) as [doc|]; [apply Hst|done].
Qed.

Lemma runPageCalls_configShape calls : forall st,
  configShape st -> configShape (runPageCalls JSON_parse cvEndpoint st calls).
Proof.
  induction calls as [|[now c] calls IH]; intros st Hst; [done|].
  apply IH. by apply runPageCall_configShape.
Qed.

(** C10.  For a preset of the catalog, [applyPreset] stores a document
    whose layout, hero, sections and sidebar are the preset's and whose
    footer and identity are the ones stored before (the empty list and null
    when nothing was stored), stamped with the time of the call; the profile
    document is not touched.  For an unknown [presetId] nothing is saved:
    the store is unchanged. *)
Theorem applyPreset_frame st now r :
  configShape st ->
  match find (fun p => strict_eq_str (field (body r) "presetId") (id p)) getCvPresets with
  | Some preset =>
      cvPageConfig (fst (applyPreset cvEndpoint st now r))
      = Some {[ "_id" := VStr "cv-page";
                "layout" := VStr (layout preset);
                "hero" := VObj (hero preset);
                "sections" := VArr (map entry_value (sections preset));
                "sidebar" := VArr (map entry_value (sidebar preset));
                "footer" := carriedFooter st;
                "identity" := carriedIdentity st;
                "updatedAt" := VStr now ]}
      /\ cvData (fst (applyPreset cvEndpoint st now r)) = cvData st
  | None =>
      applyPreset cvEndpoint st now r
      = (st, Redirect (cvEndpoint +:+ "/page?error=unknown-preset"))
  end.
Proof.
  intros Hst.
  destruct (find (fun p => strict_eq_str (field (body r) "presetId") (id p))
              getCvPresets) as [preset|] eqn:Hfind.
  - rewrite (applyPreset_known _ _ _ _ Hfind).
    apply find_some in Hfind as [Hin _]. apply catalog_layout_valid in Hin.
    unfold writeConfigFile, cvPageConfig, cvData. split; [|done].
    rewrite configDocument_literal.
    rewrite (isValidLayout_kept _ Hin), js_or_object, !js_or_list.
    by rewrite (carried_footer st Hst), (carried_identity st Hst).
  - unfold applyPreset. by rewrite Hfind.
Qed.

End PageConfiguration.

Lemma applyPreset_frame_witness :
  cvPageConfig (fst (PageBuilder.applyPreset "/cv" configuredStore "t1"
     {| PageBuilder.body := {[ "presetId" := VStr "minimal" ]};
        PageBuilder.accept := None |}))
  = Some {[ "_id" := VStr "cv-page";
            "layout" := VStr "single-column";
            "hero" := CvPageConfig.defaultHero;
            "sections" := VArr [
              CvPageConfig.entry "cv-experience-work" {[ "maxItems" := VNum 5 ]};
              CvPageConfig.entry "cv-skills-work" ∅;
              CvPageConfig.entry "cv-education-work" ∅ ];
            "sidebar" := VArr [];
            "footer" := VArr [CvPageConfig.entry "custom-html" ∅];
            "identity" := VObj {[ "name" := VStr "Ada" ]};
            "updatedAt" := VStr "t1" ]}.
Proof.
  pose proof (applyPreset_frame "/cv" configuredStore "t1"
     {| PageBuilder.body := {[ "presetId" := VStr "minimal" ]};
        PageBuilder.accept := None |}) as H.
  simpl in H. apply H. split; [reflexivity | right; eexists; reflexivity].
Defined.

(** ** Documents written by [saveCvData] *)

Local Ltac on_key k key :=
  destruct (decide (key = k)) as [<-|?]; [by simplify_map_eq|].

Local Ltac on_cv_keys k :=
  on_key k "_id"; on_key k "experience"; on_key k "projects"; on_key k "skills";
  on_key k "skillTypes"; on_key k "education"; on_key k "languages";
  on_key k "interests"; on_key k "interestTypes"; on_key k "lastUpdated";
  by simplify_map_eq.

Local Ltac on_page_keys k :=
  on_key k "_id"; on_key k "layout"; on_key k "hero"; on_key k "sections";
  on_key k "sidebar"; on_key k "footer"; on_key k "identity"; on_key k "updatedAt";
  by simplify_map_eq.

Section SavedDocuments.
Import Cv.

Lemma js_or_idem a d : truthy d = true -> js_or (js_or a d) d = js_or a d.
Proof.
  intros Hd. unfold js_or.
  destruct (truthy a) eqn:Ha; [by rewrite Ha|by rewrite Hd].
Qed.

Lemma field_lookup (o : obj) k : field o k = default VUndefined (o !! k).
Proof. done. Qed.

Lemma migration_fixpoint interests interestTypes :
  migrateInterests (migrateInterests interests interestTypes)
    (migrateInterestTypes interests interestTypes)
  = migrateInterests interests interestTypes
  /\ migrateInterestTypes (migrateInterests interests interestTypes)
      (migrateInterestTypes interests interestTypes)
    = migrateInterestTypes interests interestTypes.
Proof.
  destruct (migrateInterests_object interests interestTypes) as [o ->]. split.
  - apply migrateInterests_current.
  - by rewrite migrateInterestTypes_current, migrateInterestTypes_typeof.
Qed.

(** X1.  Saving a document that [saveCvData] wrote changes nothing but its
    timestamp: every default and the interests migration are idempotent on
    what they produce. *)
Theorem saveCvData_resave st now t0 d :
  snd (saveCvData st now (cvDocument t0 d))
  = <["lastUpdated" := VStr now]> (cvDocument t0 d).
Proof.
  cbn [saveCvData snd]. unfold cvDocument at 1. rewrite !field_lookup.
  unfold cvDocument. simplify_map_eq. rewrite !js_or_idem by done.
  rewrite (proj1 (migration_fixpoint _ _)), (proj2 (migration_fixpoint _ _)).
  apply map_eq. intros k. on_cv_keys k.
Qed.

Lemma cvDocument_withSection now section items data :
  (data = getDefaultCvData \/ exists t0 d, data = cvDocument t0 d) ->
  orderedSection section ->
  cvDocument now (<[section := VArr items]> data) = withSection now section items data.
Proof.
  intros Hdata Hs. unfold withSection, orderedSection in *.
  rewrite !elem_of_cons, elem_of_nil in Hs.
  destruct Hdata as [-> | (t0 & d & ->)].
  - destruct Hs as [-> | [-> | [-> | [-> | []]]]];
      unfold cvDocument, getDefaultCvData; rewrite !field_lookup; simplify_map_eq;
      apply map_eq; intros k; on_cv_keys k.
  - destruct Hs as [-> | [-> | [-> | [-> | []]]]];
      unfold cvDocument at 1; rewrite !field_lookup; unfold cvDocument;
      simplify_map_eq; rewrite ?js_or_idem by done;
      rewrite (proj1 (migration_fixpoint _ _)), (proj2 (migration_fixpoint _ _));
      apply map_eq; intros k; on_cv_keys k.
Qed.

Lemma loaded_shape st :
  writtenBySave st ->
  loadCvData st = getDefaultCvData \/ exists t0 d, loadCvData st = cvDocument t0 d.
Proof.
  unfold writtenBySave, loadCvData, getCvData.
  destruct (cvData st); [by right|by left].
Qed.

Lemma save_withSection st now section items :
  writtenBySave st -> orderedSection section ->
  saveCvData st now (<[section := VArr items]> (loadCvData st))
  = (writeCvFile
       (Store (Some (withSection now section items (loadCvData st)))
          (cvPageConfig st) (written st))
       (withSection now section items (loadCvData st)),
     withSection now section items (loadCvData st)).
Proof.
  intros Hst Hs. unfold saveCvData.
  by rewrite (cvDocument_withSection _ _ _ _ (loaded_shape st Hst) Hs).
Qed.

Lemma orderedSection_ne section :
  orderedSection section -> section ≠ "_id" /\ section ≠ "lastUpdated".
Proof.
  unfold orderedSection. rewrite !elem_of_cons, elem_of_nil.
  intros [-> | [-> | [-> | [-> | []]]]]; done.
Qed.

Lemma field_withSection now section items data :
  orderedSection section -> field (withSection now section items data) section = VArr items.
Proof.
  intros [H1 H2]%orderedSection_ne. unfold withSection.
  rewrite 2!field_insert_ne by done. apply field_insert.
Qed.

Lemma withSection_again now now' section items items' data :
  orderedSection section ->
  withSection now' section items' (withSection now section items data)
  = withSection now' section items' data.
Proof.
  intros [H1 H2]%orderedSection_ne. unfold withSection.
  apply map_eq. intros k.
  destruct (decide ("_id" = k)) as [<-|?]; [by simplify_map_eq|].
  destruct (decide ("lastUpdated" = k)) as [<-|?]; [by simplify_map_eq|].
  destruct (decide (section = k)) as [<-|?]; by simplify_map_eq.
Qed.

Lemma withSection_same now section items data :
  field data section = VArr items ->
  withSection now section items data
  = <["_id" := VStr "cv"]> (<["lastUpdated" := VStr now]> data).
Proof.
  intros Hf. unfold withSection.
  rewrite (insert_id data section (VArr items)); [done|].
  unfold field in Hf. destruct (data !! section) as [v|]; simpl in Hf; [|done].
  by rewrite Hf.
Qed.

Lemma after_save st now section items :
  writtenBySave st -> orderedSection section ->
  let st1 := fst (saveCvData st now (<[section := VArr items]> (loadCvData st))) in
  writtenBySave st1
  /\ loadCvData st1 = withSection now section items (loadCvData st).
Proof.
  intros Hst Hs st1. split.
  - unfold writtenBySave. simpl. eauto.
  - unfold st1. by rewrite save_withSection.
Qed.

Lemma twoEntries_writtenBySave : writtenBySave twoEntries.
Proof. unfold writtenBySave, twoEntries. cbn [saveCvData fst writeCvFile cvData]. eauto. Qed.

Lemma twoEntries_experience :
  field (loadCvData twoEntries) "experience" = VArr [VStr "a"; VStr "b"].
Proof. vm_compute. reflexivity. Qed.

Lemma experience_ordered : orderedSection "experience".
Proof. apply elem_of_cons. by left. Qed.

End SavedDocuments.

(** ** Editing an ordered section *)

Section SectionEdits.
Import Cv.

Lemma arr_get_nat l (i : nat) : arr_get l (Z.of_nat i) = default VUndefined (l !! i).
Proof.
  unfold arr_get. destruct (Z.ltb_spec (Z.of_nat i) 0); [lia|]. by rewrite Nat2Z.id.
Qed.

Lemma arr_set_nat l (i : nat) v :
  (i < length l)%nat -> arr_set l (Z.of_nat i) v = <[i := v]> l.
Proof.
  intros Hi. unfold arr_set.
  destruct (Z.ltb_spec (Z.of_nat i) 0); [lia|].
  destruct (Z.ltb_spec (Z.of_nat i) (Z.of_nat (length l))); [|lia].
  by rewrite Nat2Z.id.
Qed.

Lemma in_range (i : nat) (l : list value) :
  (i < length l)%nat ->
  (0 <=? Z.of_nat i) && (Z.of_nat i <? Z.of_nat (length l)) = true.
Proof. intros Hi. apply andb_true_iff. split; [apply Z.leb_le|apply Z.ltb_lt]; lia. Qed.

Lemma addToSection_saves st now section item :
  addToSection st now section item
  = saveCvData st now
      (<[section := VArr (sectionItems (loadCvData st) section ++ [item])]>
         (loadCvData st)).
Proof.
  unfold addToSection, sectionItems.
  destruct (field (loadCvData st) section) as [| | | | |l|] eqn:Hf; cbn [isArray negb];
    rewrite ?field_insert; try rewrite Hf; by rewrite ?insert_insert_eq.
Qed.

Lemma updateInSection_saves st now section l (i : nat) item :
  field (loadCvData st) section = VArr l -> (i < length l)%nat ->
  updateInSection st now section (Z.of_nat i) item
  = saveCvData st now (<[section := VArr (<[i := item]> l)]> (loadCvData st)).
Proof.
  intros Hl Hi. unfold updateInSection.
  by rewrite Hl, (in_range i l Hi), (arr_set_nat l i item Hi).
Qed.

Lemma removeFromSection_saves st now section l (i : nat) :
  field (loadCvData st) section = VArr l -> (i < length l)%nat ->
  removeFromSection st now section (Z.of_nat i)
  = saveCvData st now (<[section := VArr (delete i l)]> (loadCvData st)).
Proof.
  intros Hl Hi. unfold removeFromSection.
  by rewrite Hl, (in_range i l Hi), Nat2Z.id.
Qed.

Lemma swapAdjacent_spec k l a b :
  l !! k = Some a -> l !! S k = Some b ->
  swapAdjacent k l !! k = Some b
  /\ swapAdjacent k l !! S k = Some a
  /\ (forall j, j ≠ k -> j ≠ S k -> swapAdjacent k l !! j = l !! j)
  /\ length (swapAdjacent k l) = length l.
Proof.
  intros Ha Hb. unfold swapAdjacent. rewrite Ha, Hb.
  assert (Hk : (k < length l)%nat) by (by eapply lookup_lt_Some).
  assert (HSk : (S k < length l)%nat) by (by eapply lookup_lt_Some).
  repeat split.
  - apply list_lookup_insert_eq. by rewrite length_insert.
  - rewrite list_lookup_insert_ne by lia. by apply list_lookup_insert_eq.
  - intros j Hj HSj. by rewrite !list_lookup_insert_ne.
  - by rewrite !length_insert.
Qed.

Lemma swapAdjacent_involutive k l : swapAdjacent k (swapAdjacent k l) = l.
Proof.
  destruct (l !! k) as [a|] eqn:Ha; [|by unfold swapAdjacent; rewrite Ha, ?Ha].
  destruct (l !! S k) as [b|] eqn:Hb;
    [|by unfold swapAdjacent; rewrite Ha, Hb, ?Ha, ?Hb].
  destruct (swapAdjacent_spec k l a b Ha Hb) as (Hk & HSk & Hother & Hlen).
  unfold swapAdjacent at 1. rewrite Hk, HSk.
  apply list_eq. intros j.
  destruct (decide (j = k)) as [->|Hjk].
  - rewrite list_lookup_insert_eq; [done|]. rewrite length_insert, Hlen.
    by eapply lookup_lt_Some.
  - rewrite list_lookup_insert_ne by done.
    destruct (decide (j = S k)) as [->|HjSk].
    + rewrite list_lookup_insert_eq; [done|]. rewrite Hlen. by eapply lookup_lt_Some.
    + rewrite list_lookup_insert_ne by done. by apply Hother.
Qed.

Lemma moveInSection_saves st now section l k :
  field (loadCvData st) section = VArr l -> (S k < length l)%nat ->
  moveInSection st now section (Z.of_nat (S k)) "up"
    = saveCvData st now (<[section := VArr (swapAdjacent k l)]> (loadCvData st))
  /\ moveInSection st now section (Z.of_nat k) "down"
    = saveCvData st now (<[section := VArr (swapAdjacent k l)]> (loadCvData st)).
Proof.
  intros Hl Hk.
  destruct (lookup_lt_is_Some_2 l k) as [a Ha]; [lia|].
  destruct (lookup_lt_is_Some_2 l (S k)) as [b Hb]; [done|].
  unfold swapAdjacent. rewrite Ha, Hb.
  unfold moveInSection. rewrite Hl. split.
  - simpl String.eqb. cbv iota.
    replace (Z.of_nat (S k) - 1) with (Z.of_nat k) by lia.
    destruct (Z.ltb_spec (Z.of_nat k) 0); [lia|].
    destruct (Z.leb_spec (Z.of_nat (length l)) (Z.of_nat k)); [lia|].
    cbn [orb]. rewrite !arr_get_nat, Ha, Hb. cbn [default from_option id].
    rewrite (arr_set_nat l (S k) a) by done.
    rewrite arr_set_nat by (rewrite length_insert; lia). done.
  - simpl String.eqb. cbv iota.
    replace (Z.of_nat k + 1) with (Z.of_nat (S k)) by lia.
    destruct (Z.ltb_spec (Z.of_nat (S k)) 0); [lia|].
    destruct (Z.leb_spec (Z.of_nat (length l)) (Z.of_nat (S k))); [lia|].
    cbn [orb]. rewrite !arr_get_nat, Ha, Hb. cbn [default from_option id].
    rewrite (arr_set_nat l k b) by lia.
    rewrite arr_set_nat by (rewrite length_insert; lia).
    by rewrite list_insert_insert_ne by lia.
Qed.

Lemma delete_last (l : list value) x : delete (length l) (l ++ [x])%list = l.
Proof. induction l as [|y l IH]; [done|]. simpl. by rewrite IH. Qed.

(** X2.  On a collection that is empty or was written by [saveCvData],
    [addToSection] on one of the four list sections appends the item at the
    end of that section, stamps the time, and changes no other field; the
    document returned is the one stored. *)
Theorem addToSection_appends st now section item :
  writtenBySave st -> orderedSection section ->
  let data := loadCvData st in
  let doc := withSection now section (sectionItems data section ++ [item]) data in
  snd (addToSection st now section item) = doc
  /\ cvData (fst (addToSection st now section item)) = Some doc.
Proof.
  intros Hst Hs data doc. rewrite addToSection_saves.
  by rewrite save_withSection.
Qed.

Lemma addToSection_appends_witness :
  let data := loadCvData twoEntries in
  let doc :=
    withSection "t1" "experience" (sectionItems data "experience" ++ [VStr "c"]) data in
  snd (addToSection twoEntries "t1" "experience" (VStr "c")) = doc
  /\ cvData (fst (addToSection twoEntries "t1" "experience" (VStr "c"))) = Some doc.
Proof.
  apply (addToSection_appends twoEntries "t1" "experience" (VStr "c")).
  - exact twoEntries_writtenBySave.
  - exact experience_ordered.
Defined.

(** X3.  [updateInSection] with an index inside the list replaces exactly
    the item at that index: the other items, the length and every other
    field of the document stay, and the time is stamped. *)
Theorem updateInSection_replaces st now section l (i : nat) item :
  writtenBySave st -> orderedSection section ->
  field (loadCvData st) section = VArr l -> (i < length l)%nat ->
  let doc := withSection now section (<[i := item]> l) (loadCvData st) in
  snd (updateInSection st now section (Z.of_nat i) item) = doc
  /\ cvData (fst (updateInSection st now section (Z.of_nat i) item)) = Some doc
  /\ <[i := item]> l !! i = Some item
  /\ (forall j, j ≠ i -> <[i := item]> l !! j = l !! j)
  /\ length (<[i := item]> l) = length l.
Proof.
  intros Hst Hs Hl Hi doc.
  rewrite (updateInSection_saves _ _ _ _ _ _ Hl Hi), save_withSection by done.
  repeat split.
  - by apply list_lookup_insert_eq.
  - intros j Hj. by apply list_lookup_insert_ne.
  - apply length_insert.
Qed.

Lemma updateInSection_replaces_witness :
  let doc :=
    withSection "t1" "experience" (<[1%nat := VStr "c"]> [VStr "a"; VStr "b"])
      (loadCvData twoEntries) in
  snd (updateInSection twoEntries "t1" "experience" (Z.of_nat 1) (VStr "c")) = doc
  /\ cvData (fst (updateInSection twoEntries "t1" "experience" (Z.of_nat 1) (VStr "c")))
     = Some doc
  /\ <[1%nat := VStr "c"]> [VStr "a"; VStr "b"] !! 1%nat = Some (VStr "c")
  /\ (forall j, j ≠ 1%nat ->
        <[1%nat := VStr "c"]> [VStr "a"; VStr "b"] !! j = [VStr "a"; VStr "b"] !! j)
  /\ length (<[1%nat := VStr "c"]> [VStr "a"; VStr "b"]) = length [VStr "a"; VStr "b"].
Proof.
  apply (updateInSection_replaces twoEntries "t1" "experience"
           [VStr "a"; VStr "b"] 1 (VStr "c")).
  - exact twoEntries_writtenBySave.
  - exact experience_ordered.
  - exact twoEntries_experience.
  - simpl. lia.
Defined.

(** X4.  [removeFromSection] with an index inside the list deletes exactly
    the item at that index: the items before it stay in place, the items
    after it move up by one, and the rest of the document stays. *)
Theorem removeFromSection_deletes st now section l (i : nat) :
  writtenBySave st -> orderedSection section ->
  field (loadCvData st) section = VArr l -> (i < length l)%nat ->
  let doc := withSection now section (delete i l) (loadCvData st) in
  snd (removeFromSection st now section (Z.of_nat i)) = doc
  /\ cvData (fst (removeFromSection st now section (Z.of_nat i))) = Some doc
  /\ (forall j, (j < i)%nat -> delete i l !! j = l !! j)
  /\ (forall j, (i <= j)%nat -> delete i l !! j = l !! S j)
  /\ S (length (delete i l)) = length l.
Proof.
  intros Hst Hs Hl Hi doc.
  rewrite (removeFromSection_saves _ _ _ _ _ Hl Hi), save_withSection by done.
  repeat split.
  - intros j Hj. by apply list_lookup_delete_lt.
  - intros j Hj. by apply list_lookup_delete_ge.
  - rewrite length_delete; [lia|]. by apply lookup_lt_is_Some_2.
Qed.

Lemma removeFromSection_deletes_witness :
  let doc :=
    withSection "t1" "experience" (delete 0%nat [VStr "a"; VStr "b"])
      (loadCvData twoEntries) in
  snd (removeFromSection twoEntries "t1" "experience" (Z.of_nat 0)) = doc
  /\ cvData (fst (removeFromSection twoEntries "t1" "experience" (Z.of_nat 0))) = Some doc
  /\ (forall j, (j < 0)%nat ->
        delete 0%nat [VStr "a"; VStr "b"] !! j = [VStr "a"; VStr "b"] !! j)
  /\ (forall j, (0 <= j)%nat ->
        delete 0%nat [VStr "a"; VStr "b"] !! j = [VStr "a"; VStr "b"] !! S j)
  /\ S (length (delete 0%nat [VStr "a"; VStr "b"])) = length [VStr "a"; VStr "b"].
Proof.
  apply (removeFromSection_deletes twoEntries "t1" "experience"
           [VStr "a"; VStr "b"] 0).
  - exact twoEntries_writtenBySave.
  - exact experience_ordered.
  - exact twoEntries_experience.
  - simpl. lia.
Defined.

(** X5.  With both positions inside the list, moving item [k+1] up is the
    same call as moving item [k] down, and it exchanges the two neighbours
    and nothing else: the other items, the length and the rest of the
    document stay. *)
Theorem moveInSection_swaps st now section l k a b :
  writtenBySave st -> orderedSection section ->
  field (loadCvData st) section = VArr l ->
  l !! k = Some a -> l !! S k = Some b ->
  let doc := withSection now section (swapAdjacent k l) (loadCvData st) in
  snd (moveInSection st now section (Z.of_nat (S k)) "up") = doc
  /\ cvData (fst (moveInSection st now section (Z.of_nat (S k)) "up")) = Some doc
  /\ moveInSection st now section (Z.of_nat k) "down"
     = moveInSection st now section (Z.of_nat (S k)) "up"
  /\ swapAdjacent k l !! k = Some b
  /\ swapAdjacent k l !! S k = Some a
  /\ (forall j, j ≠ k -> j ≠ S k -> swapAdjacent k l !! j = l !! j)
  /\ length (swapAdjacent k l) = length l.
Proof.
  intros Hst Hs Hl Ha Hb doc.
  assert (HSk : (S k < length l)%nat) by (by eapply lookup_lt_Some).
  destruct (moveInSection_saves st now section l k Hl HSk) as [-> ->].
  rewrite save_withSection by done.
  repeat split; by apply (swapAdjacent_spec k l a b).
Qed.

Lemma moveInSection_swaps_witness :
  let l := [VStr "a"; VStr "b"] in
  let doc := withSection "t1" "experience" (swapAdjacent 0 l) (loadCvData twoEntries) in
  snd (moveInSection twoEntries "t1" "experience" (Z.of_nat 1) "up") = doc
  /\ cvData (fst (moveInSection twoEntries "t1" "experience" (Z.of_nat 1) "up")) = Some doc
  /\ moveInSection twoEntries "t1" "experience" (Z.of_nat 0) "down"
     = moveInSection twoEntries "t1" "experience" (Z.of_nat 1) "up"
  /\ swapAdjacent 0 l !! 0%nat = Some (VStr "b")
  /\ swapAdjacent 0 l !! 1%nat = Some (VStr "a")
  /\ (forall j, j ≠ 0%nat -> j ≠ 1%nat -> swapAdjacent 0 l !! j = l !! j)
  /\ length (swapAdjacent 0 l) = length l.
Proof.
  apply (moveInSection_swaps twoEntries "t1" "experience"
           [VStr "a"; VStr "b"] 0 (VStr "a") (VStr "b")).
  - exact twoEntries_writtenBySave.
  - exact experience_ordered.
  - exact twoEntries_experience.
  - reflexivity.
  - reflexivity.
Defined.

(** X6.  Moving an item up and then down again restores the document:
    after the second call the stored profile is the one the first call
    found, with the identifier and the new timestamp. *)
Theorem move_up_then_down_restores st now now' section l k a b :
  writtenBySave st -> orderedSection section ->
  field (loadCvData st) section = VArr l ->
  l !! k = Some a -> l !! S k = Some b ->
  let st1 := fst (moveInSection st now section (Z.of_nat (S k)) "up") in
  snd (moveInSection st1 now' section (Z.of_nat k) "down")
  = <["_id" := VStr "cv"]> (<["lastUpdated" := VStr now']> (loadCvData st)).
Proof.
  intros Hst Hs Hl Ha Hb st1.
  assert (HSk : (S k < length l)%nat) by (by eapply lookup_lt_Some).
  destruct (swapAdjacent_spec k l a b Ha Hb) as (_ & _ & _ & Hlen).
  unfold st1.
  rewrite (proj1 (moveInSection_saves st now section l k Hl HSk)).
  destruct (after_save st now section (swapAdjacent k l) Hst Hs) as [Hst1 Hload].
  set (st' := fst (saveCvData st now _)) in *.
  assert (Hl1 : field (loadCvData st') section = VArr (swapAdjacent k l))
    by (rewrite Hload; by apply field_withSection).
  rewrite (proj2 (moveInSection_saves st' now' section _ k Hl1
                    ltac:(by rewrite Hlen))).
  rewrite save_withSection by done. cbn [snd].
  rewrite Hload, swapAdjacent_involutive, withSection_again by done.
  by apply withSection_same.
Qed.

Lemma move_up_then_down_restores_witness :
  let st1 := fst (moveInSection twoEntries "t1" "experience" (Z.of_nat 1) "up") in
  snd (moveInSection st1 "t2" "experience" (Z.of_nat 0) "down")
  = <["_id" := VStr "cv"]> (<["lastUpdated" := VStr "t2"]> (loadCvData twoEntries)).
Proof.
  apply (move_up_then_down_restores twoEntries "t1" "t2" "experience"
           [VStr "a"; VStr "b"] 0 (VStr "a") (VStr "b")).
  - exact twoEntries_writtenBySave.
  - exact experience_ordered.
  - exact twoEntries_experience.
  - reflexivity.
  - reflexivity.
Defined.

(** X7.  Adding an item and then removing the last item of the section
    restores the section: the profile is the one found before the two
    calls, with the section normalised to a list and the new timestamp. *)
Theorem add_then_remove_last_restores st now now' section item :
  writtenBySave st -> orderedSection section ->
  let l := sectionItems (loadCvData st) section in
  let st1 := fst (addToSection st now section item) in
  snd (removeFromSection st1 now' section (Z.of_nat (length l)))
  = withSection now' section l (loadCvData st).
Proof.
  intros Hst Hs l st1. unfold st1. rewrite addToSection_saves. fold l.
  destruct (after_save st now section (l ++ [item]) Hst Hs) as [Hst1 Hload].
  set (st' := fst (saveCvData st now _)) in *.
  assert (Hl1 : field (loadCvData st') section = VArr (l ++ [item]))
    by (rewrite Hload; by apply field_withSection).
  rewrite (removeFromSection_saves st' now' section (l ++ [item]) (length l) Hl1)
    by (rewrite length_app; simpl; lia).
  rewrite save_withSection by done. cbn [snd].
  rewrite Hload, withSection_again by done. by rewrite delete_last.
Qed.

Lemma add_then_remove_last_restores_witness :
  let l := sectionItems (loadCvData twoEntries) "experience" in
  let st1 := fst (addToSection twoEntries "t1" "experience" (VStr "c")) in
  snd (removeFromSection st1 "t2" "experience" (Z.of_nat (length l)))
  = withSection "t2" "experience" l (loadCvData twoEntries).
Proof.
  apply (add_then_remove_last_restores twoEntries "t1" "t2" "experience" (VStr "c")).
  - exact twoEntries_writtenBySave.
  - exact experience_ordered.
Defined.

End SectionEdits.

(** ** Editing the skill categories *)

Section CategoryEdits.
Import Cv.

Local Arguments deleteIfSet : simpl never.

Lemma resetUnlessObject_truthy v :
  truthy v = true -> exists o, resetUnlessObject v = VObj o.
Proof. destruct v; try done; unfold resetUnlessObject; simpl; eauto. Qed.

Lemma truthy_js_or a d : truthy d = true -> truthy (js_or a d) = true.
Proof. intros Hd. unfold js_or. by destruct (truthy a) eqn:E. Qed.

Lemma saved_skills_truthy st :
  writtenBySave st ->
  truthy (field (loadCvData st) "skills") = true
  /\ truthy (field (loadCvData st) "skillTypes") = true.
Proof.
  unfold writtenBySave, loadCvData, getCvData.
  destruct (cvData st) as [doc|]; [|done].
  intros (t0 & d & ->). unfold cvDocument. rewrite !field_lookup. simplify_map_eq.
  split; by apply truthy_js_or.
Qed.

Local Ltac read_data_fields :=
  repeat first
    [ rewrite field_insert | rewrite field_insert_ne by done | progress simpl ].

Lemma cvDocument_skills now data :
  field (cvDocument now data) "skills" = js_or (field data "skills") (VObj ∅)
  /\ field (cvDocument now data) "skillTypes" = js_or (field data "skillTypes") (VObj ∅).
Proof. unfold cvDocument. rewrite !field_lookup. by simplify_map_eq. Qed.

Lemma stored_after_save st now data k :
  stored (fst (saveCvData st now data)) k = field (cvDocument now data) k
  /\ field (loadCvData (fst (saveCvData st now data))) k = field (cvDocument now data) k.
Proof. done. Qed.

Lemma deleteIfSet_map cond (m : obj) k :
  deleteIfSet cond (VObj m) k
  = Ok (VObj (if cond && truthy (field m k) then delete k m else m)).
Proof.
  unfold deleteIfSet. destruct cond; [|done]. simpl.
  by destruct (truthy (field m k)).
Qed.


Lemma editSkillCategory_maps st now oldCategory newCategory items skillType s t :
  field (loadCvData st) "skills" = VObj s ->
  field (loadCvData st) "skillTypes" = VObj t ->
  let renamed := negb (String.eqb oldCategory newCategory) in
  let s' := <[newCategory := items]>
              (if renamed && truthy (field s oldCategory) then delete oldCategory s else s) in
  let t' := <[newCategory := js_or skillType (VStr "personal")]>
              (if renamed && truthy (field t oldCategory) then delete oldCategory t else t) in
  exists r, editSkillCategory st now oldCategory newCategory items skillType = Ok r
            /\ stored (fst r) "skills" = VObj s'
            /\ stored (fst r) "skillTypes" = VObj t'.
Proof.
  intros Hs Ht renamed s' t'. unfold editSkillCategory.
  repeat first [ rewrite Hs | rewrite Ht | rewrite resetUnlessObject_object
               | rewrite field_insert | rewrite field_insert_ne by done ].
  rewrite !deleteIfSet_map. simpl. eexists. split; [reflexivity|].
  rewrite !(proj1 (stored_after_save _ _ _ _)).
  rewrite (proj1 (cvDocument_skills _ _)), (proj2 (cvDocument_skills _ _)).
  by rewrite field_insert_ne, !field_insert.
Qed.

Lemma addSkillCategory_maps st now category items skillType s t :
  field (loadCvData st) "skills" = VObj s ->
  field (loadCvData st) "skillTypes" = VObj t ->
  exists r, addSkillCategory st now category items skillType = Ok r
            /\ stored (fst r) "skills" = VObj (<[category := items]> s)
            /\ stored (fst r) "skillTypes"
               = VObj (<[category := js_or skillType (VStr "personal")]> t)
            /\ field (loadCvData (fst r)) "skills" = VObj (<[category := items]> s)
            /\ field (loadCvData (fst r)) "skillTypes"
               = VObj (<[category := js_or skillType (VStr "personal")]> t).
Proof.
  intros Hs Ht. unfold addSkillCategory.
  repeat first [ rewrite Hs | rewrite Ht | rewrite resetUnlessObject_object
               | rewrite field_insert | rewrite field_insert_ne by done ].
  simpl. eexists. split; [reflexivity|].
  rewrite !(proj1 (stored_after_save _ _ _ _)), !(proj2 (stored_after_save _ _ _ _)).
  rewrite (proj1 (cvDocument_skills _ _)), (proj2 (cvDocument_skills _ _)).
  by rewrite field_insert_ne, !field_insert.
Qed.

Lemma removeSkillCategory_maps st now category s t :
  field (loadCvData st) "skills" = VObj s ->
  field (loadCvData st) "skillTypes" = VObj t ->
  exists r, removeSkillCategory st now category = Ok r
            /\ stored (fst r) "skills"
               = VObj (if truthy (field s category) then delete category s else s)
            /\ stored (fst r) "skillTypes"
               = VObj (if truthy (field t category) then delete category t else t).
Proof.
  intros Hs Ht. unfold removeSkillCategory.
  repeat first [ rewrite Hs | rewrite Ht | rewrite deleteIfSet_map
               | rewrite field_insert | rewrite field_insert_ne by done
               | progress simpl ].
  eexists. split; [reflexivity|].
  rewrite !(proj1 (stored_after_save _ _ _ _)).
  rewrite (proj1 (cvDocument_skills _ _)), (proj2 (cvDocument_skills _ _)).
  by rewrite field_insert_ne, !field_insert.
Qed.

Lemma twoEntries_skills :
  field (loadCvData twoEntries) "skills" = VObj ∅
  /\ field (loadCvData twoEntries) "skillTypes" = VObj ∅.
Proof. split; vm_compute; reflexivity. Qed.

Lemma blankClassifier_skills :
  field (loadCvData blankClassifier) "skills" = VObj {[ "Go" := VArr [VStr "channels"] ]}
  /\ field (loadCvData blankClassifier) "skillTypes" = VObj {[ "Go" := VStr "" ]}.
Proof. split; vm_compute; reflexivity. Qed.

(** X8.  On a collection that is empty or was written by [saveCvData],
    [addSkillCategory] and [editSkillCategory] never throw, whatever the
    category names, the items and the skill type. *)
Theorem skill_add_edit_succeed st now oldCategory category items skillType :
  writtenBySave st ->
  (exists r, addSkillCategory st now category items skillType = Ok r)
  /\ (exists r, editSkillCategory st now oldCategory category items skillType = Ok r).
Proof.
  intros Hst. destruct (saved_skills_truthy st Hst) as [Hs Ht].
  destruct (resetUnlessObject_truthy _ Hs) as [s Hrs].
  destruct (resetUnlessObject_truthy _ Ht) as [t Hrt].
  split.
  - unfold addSkillCategory. read_data_fields. rewrite Hrs, Hrt. simpl. eauto.
  - unfold editSkillCategory. read_data_fields. rewrite Hrs, Hrt.
    unfold deleteIfSet.
    destruct (negb (String.eqb oldCategory category)); simpl.
    + destruct (truthy (field s oldCategory)), (truthy (field t oldCategory)); simpl; eauto.
    + eauto.
Qed.

Lemma skill_add_edit_succeed_witness :
  (exists r, addSkillCategory twoEntries "t1" "Tools" (VArr [VStr "git"]) (VStr "work")
             = Ok r)
  /\ (exists r, editSkillCategory twoEntries "t1" "Old" "Tools" (VArr [VStr "git"])
                  (VStr "work") = Ok r).
Proof.
  apply (skill_add_edit_succeed twoEntries "t1" "Old" "Tools" (VArr [VStr "git"])
           (VStr "work")).
  exact twoEntries_writtenBySave.
Defined.

(** X9.  The guard [typeof data.skills !== "object"] lets [null] through:
    on a stored document whose [skills] is [null], [addSkillCategory] and
    [editSkillCategory] throw a TypeError and nothing is saved. *)
Theorem skill_add_edit_throw_on_null st now oldCategory category items skillType :
  field (loadCvData st) "skills" = VNull ->
  addSkillCategory st now category items skillType = Throw TypeError
  /\ editSkillCategory st now oldCategory category items skillType = Throw TypeError.
Proof.
  intros Hnull. split.
  - unfold addSkillCategory. read_data_fields. by rewrite Hnull.
  - unfold editSkillCategory. read_data_fields. rewrite Hnull.
    unfold deleteIfSet. by destruct (negb (String.eqb oldCategory category)).
Qed.

Lemma skill_add_edit_throw_on_null_witness :
  addSkillCategory (Store (Some {[ "skills" := VNull ]}) None []) "t1" "Tools"
    (VArr []) VUndefined = Throw TypeError
  /\ editSkillCategory (Store (Some {[ "skills" := VNull ]}) None []) "t1" "Old" "Tools"
       (VArr []) VUndefined = Throw TypeError.
Proof.
  apply (skill_add_edit_throw_on_null (Store (Some {[ "skills" := VNull ]}) None [])
           "t1" "Old" "Tools" (VArr []) VUndefined).
  reflexivity.
Defined.



(** X11.  A rename leaves a classifier behind when it is falsy: if the old
    category has items but an empty classifier, [editSkillCategory] drops
    the old name from [skills] and keeps it in [skillTypes], so the two key
    sets differ afterwards. *)
Theorem rename_leaves_falsy_classifier st now oldCategory newCategory items skillType
    s t l c :
  field (loadCvData st) "skills" = VObj s ->
  field (loadCvData st) "skillTypes" = VObj t ->
  oldCategory ≠ newCategory ->
  s !! oldCategory = Some (VArr l) ->
  t !! oldCategory = Some c -> truthy c = false ->
  exists r s' t',
    editSkillCategory st now oldCategory newCategory items skillType = Ok r
    /\ stored (fst r) "skills" = VObj s'
    /\ stored (fst r) "skillTypes" = VObj t'
    /\ (oldCategory ∉ dom s') /\ (oldCategory ∈ dom t').
Proof.
  intros Hs Ht Hne Hold Hc Hfalsy.
  destruct (editSkillCategory_maps st now oldCategory newCategory items skillType s t Hs Ht)
    as (r & Hr & Hs' & Ht').
  assert (Hren : negb (String.eqb oldCategory newCategory) = true)
    by (by apply negb_true_iff, String.eqb_neq).
  rewrite Hren in Hs', Ht'. unfold field in Hs', Ht'.
  rewrite Hold, Hc in *. simpl in Hs', Ht'. rewrite Hfalsy in Ht'.
  eexists r, _, _. split; [done|]. split; [exact Hs'|]. split; [exact Ht'|].
  split.
  - intros [v Hv]%elem_of_dom.
    rewrite lookup_insert_ne, lookup_delete_eq in Hv by done. discriminate.
  - apply elem_of_dom. rewrite lookup_insert_ne by done. eauto.
Qed.

Lemma rename_leaves_falsy_classifier_witness :
  exists r s' t',
    editSkillCategory blankClassifier "t1" "Go" "Golang" (VArr []) (VStr "work") = Ok r
    /\ stored (fst r) "skills" = VObj s'
    /\ stored (fst r) "skillTypes" = VObj t'
    /\ ("Go" ∉ dom s') /\ ("Go" ∈ dom t').
Proof.
  apply (rename_leaves_falsy_classifier blankClassifier "t1" "Go" "Golang" (VArr [])
           (VStr "work") {[ "Go" := VArr [VStr "channels"] ]} {[ "Go" := VStr "" ]}
           [VStr "channels"] (VStr "")).
  - exact (proj1 blankClassifier_skills).
  - exact (proj2 blankClassifier_skills).
  - discriminate.
  - reflexivity.
  - reflexivity.
  - reflexivity.
Defined.

(** X12.  [removeSkillCategory] drops the category from each map where its
    value was truthy and keeps every other category; removing a category
    that is in neither map changes neither map. *)
Theorem removeSkillCategory_removes st now category s t :
  field (loadCvData st) "skills" = VObj s ->
  field (loadCvData st) "skillTypes" = VObj t ->
  exists r s' t',
    removeSkillCategory st now category = Ok r
    /\ stored (fst r) "skills" = VObj s'
    /\ stored (fst r) "skillTypes" = VObj t'
    /\ s' !! category = (if truthy (field s category) then None else s !! category)
    /\ t' !! category = (if truthy (field t category) then None else t !! category)
    /\ (forall k, k ≠ category -> s' !! k = s !! k /\ t' !! k = t !! k)
    /\ (category ∉ dom s -> s' = s)
    /\ (category ∉ dom t -> t' = t).
Proof.
  intros Hs Ht.
  destruct (removeSkillCategory_maps st now category s t Hs Ht) as (r & Hr & Hs' & Ht').
  eexists r, _, _. split; [done|]. split; [exact Hs'|]. split; [exact Ht'|].
  repeat split.
  - destruct (truthy (field s category)); [apply lookup_delete_eq|done].
  - destruct (truthy (field t category)); [apply lookup_delete_eq|done].
  - destruct (truthy (field s category)); [by apply lookup_delete_ne|done].
  - destruct (truthy (field t category)); [by apply lookup_delete_ne|done].
  - intros Hk%not_elem_of_dom. unfold field. by rewrite Hk.
  - intros Hk%not_elem_of_dom. unfold field. by rewrite Hk.
Qed.

Lemma removeSkillCategory_removes_witness :
  let s : obj := {[ "Go" := VArr [VStr "channels"] ]} in
  let t : obj := {[ "Go" := VStr "" ]} in
  exists r s' t',
    removeSkillCategory blankClassifier "t1" "Go" = Ok r
    /\ stored (fst r) "skills" = VObj s'
    /\ stored (fst r) "skillTypes" = VObj t'
    /\ s' !! "Go" = (if truthy (field s "Go") then None else s !! "Go")
    /\ t' !! "Go" = (if truthy (field t "Go") then None else t !! "Go")
    /\ (forall k, k ≠ "Go" -> s' !! k = s !! k /\ t' !! k = t !! k)
    /\ ("Go" ∉ dom s -> s' = s)
    /\ ("Go" ∉ dom t -> t' = t).
Proof.
  apply (removeSkillCategory_removes blankClassifier "t1" "Go").
  - exact (proj1 blankClassifier_skills).
  - exact (proj2 blankClassifier_skills).
Defined.

(** X13.  Adding a category that is in neither map and removing it again
    restores both maps. *)
Theorem add_then_remove_skill_category st now now' category items skillType s t :
  field (loadCvData st) "skills" = VObj s ->
  field (loadCvData st) "skillTypes" = VObj t ->
  category ∉ dom s -> category ∉ dom t ->
  exists r1 r2,
    addSkillCategory st now category (VArr items) skillType = Ok r1
    /\ removeSkillCategory (fst r1) now' category = Ok r2
    /\ stored (fst r2) "skills" = VObj s
    /\ stored (fst r2) "skillTypes" = VObj t.
Proof.
  intros Hs Ht Hks%not_elem_of_dom Hkt%not_elem_of_dom.
  destruct (addSkillCategory_maps st now category (VArr items) skillType s t Hs Ht)
    as (r1 & Hr1 & _ & _ & Hs1 & Ht1).
  destruct (removeSkillCategory_maps (fst r1) now' category _ _ Hs1 Ht1)
    as (r2 & Hr2 & Hs2 & Ht2).
  exists r1, r2. split; [done|]. split; [done|].
  rewrite Hs2, Ht2. unfold field. rewrite !lookup_insert_eq. simpl.
  rewrite truthy_js_or_personal. by rewrite !delete_insert_id.
Qed.

Lemma add_then_remove_skill_category_witness :
  exists r1 r2,
    addSkillCategory twoEntries "t1" "Tools" (VArr [VStr "git"]) (VStr "work") = Ok r1
    /\ removeSkillCategory (fst r1) "t2" "Tools" = Ok r2
    /\ stored (fst r2) "skills" = VObj ∅
    /\ stored (fst r2) "skillTypes" = VObj ∅.
Proof.
  apply (add_then_remove_skill_category twoEntries "t1" "t2" "Tools" [VStr "git"]
           (VStr "work") ∅ ∅).
  - exact (proj1 twoEntries_skills).
  - exact (proj2 twoEntries_skills).
  - apply not_elem_of_dom. reflexivity.
  - apply not_elem_of_dom. reflexivity.
Defined.

End CategoryEdits.

(** ** Categories and their classifiers *)

Section CategoryAlignment.
Import Cv CvInterest.

Local Arguments deleteIfSet : simpl never.

Local Ltac insert_fields :=
  repeat first [ rewrite field_insert | rewrite field_insert_ne by done ].

Lemma cvDocument_categories now data :
  field (cvDocument now data) "skills" = js_or (field data "skills") (VObj ∅)
  /\ field (cvDocument now data) "skillTypes" = js_or (field data "skillTypes") (VObj ∅)
  /\ field (cvDocument now data) "interests"
     = migrateInterests (field data "interests") (field data "interestTypes")
  /\ field (cvDocument now data) "interestTypes"
     = migrateInterestTypes (field data "interests") (field data "interestTypes").
Proof. unfold cvDocument. rewrite !field_lookup. by simplify_map_eq. Qed.

Lemma categoriesAligned_saved st now data :
  categoriesAligned data ->
  categoriesAligned (loadCvData (fst (saveCvData st now data))).
Proof.
  intros [(s & t & Hs & Ht & Hst) (i & it & Hi & Hit & Hiit)].
  change (loadCvData (fst (saveCvData st now data))) with (cvDocument now data).
  destruct (cvDocument_categories now data) as (H1 & H2 & H3 & H4).
  split.
  - exists s, t. by rewrite H1, H2, Hs, Ht.
  - exists i, it. by rewrite H3, H4, Hi, Hit.
Qed.

Lemma categoriesAligned_default : categoriesAligned getDefaultCvData.
Proof.
  split; exists ∅, ∅; repeat split; try apply map_Forall_empty.
Qed.

Lemma alignedPair_other data items types k v :
  k ≠ items -> k ≠ types ->
  alignedPair data items types -> alignedPair (<[k := v]> data) items types.
Proof.
  intros H1 H2 (s & t & Hs & Ht & H). exists s, t. insert_fields. by rewrite Hs, Ht.
Qed.

Lemma categoriesAligned_list_section data section l v :
  categoriesAligned data -> field data section = VArr l ->
  categoriesAligned (<[section := v]> data).
Proof.
  intros [Hsk Hin] Hl.
  assert (Hne : section ≠ "skills" /\ section ≠ "skillTypes"
                /\ section ≠ "interests" /\ section ≠ "interestTypes").
  { destruct Hsk as (s & t & Hs & Ht & _), Hin as (i & it & Hi & Hit & _).
    repeat split; intros ->; congruence. }
  destruct Hne as (? & ? & ? & ?). split; by apply alignedPair_other.
Qed.

Lemma categoriesAligned_ordered data n v :
  categoriesAligned data -> categoriesAligned (<[sectionName n := v]> data).
Proof. intros [Hsk Hin]. split; apply alignedPair_other; try done; by destruct n. Qed.

Lemma alignedPair_set data items types (s t : obj) :
  items ≠ types -> dom s = dom t -> allTruthy s -> allTruthy t ->
  alignedPair (<[types := VObj t]> (<[items := VObj s]> data)) items types.
Proof. intros Hne Hd Hs Ht. exists s, t. by insert_fields. Qed.

Lemma aligned_insert (s t : obj) k v c :
  dom s = dom t -> allTruthy s -> allTruthy t -> truthy v = true -> truthy c = true ->
  dom (<[k := v]> s) = dom (<[k := c]> t)
  /\ allTruthy (<[k := v]> s) /\ allTruthy (<[k := c]> t).
Proof.
  intros Hd Hs Ht Hv Hc. rewrite !dom_insert_L, Hd.
  repeat split; by apply map_Forall_insert_2.
Qed.

Lemma aligned_drop (s t : obj) k (c : bool) :
  dom s = dom t -> allTruthy s -> allTruthy t ->
  dom (if c then delete k s else s) = dom (if c then delete k t else t)
  /\ allTruthy (if c then delete k s else s)
  /\ allTruthy (if c then delete k t else t).
Proof.
  intros Hd Hs Ht. destruct c; [|done]. rewrite !dom_delete_L, Hd.
  repeat split; by apply map_Forall_delete.
Qed.

Lemma deleteIfSet_aligned cond (m : obj) k :
  allTruthy m ->
  deleteIfSet cond (VObj m) k
  = Ok (VObj (if cond && bool_decide (k ∈ dom m) then delete k m else m)).
Proof.
  intros Hm. rewrite deleteIfSet_map. unfold field.
  destruct (m !! k) as [v|] eqn:Hk; simpl.
  - rewrite (Hm k v Hk). rewrite bool_decide_eq_true_2; [done|].
    apply elem_of_dom. eauto.
  - rewrite bool_decide_eq_false_2; [by rewrite andb_false_r|].
    by apply not_elem_of_dom.
Qed.

Local Ltac category_call Hs Ht :=
  repeat first [ rewrite Hs | rewrite Ht | rewrite resetUnlessObject_object
               | rewrite field_insert | rewrite field_insert_ne by done
               | progress simpl ].

Lemma skill_call_aligned st now c :
  categoriesAligned (loadCvData st) ->
  exists st', runSkillCall st now c = Ok st' /\ categoriesAligned (loadCvData st').
Proof.
  intros [Hsk Hin]. pose proof Hsk as (s & t & Hs & Ht & Hd & Has & Hat).
  destruct c as [category items skillType
                | oldCategory newCategory items skillType | category]; simpl.
  - unfold addSkillCategory. category_call Hs Ht.
    eexists. split; [reflexivity|]. apply categoriesAligned_saved. split.
    + destruct (aligned_insert s t category (VArr items)
                  (js_or skillType (VStr "personal")) Hd Has Hat)
        as (? & ? & ?); [done|apply truthy_js_or_personal|].
      by apply alignedPair_set.
    + by repeat apply alignedPair_other.
  - unfold editSkillCategory. category_call Hs Ht.
    rewrite !deleteIfSet_aligned by done. rewrite Hd. simpl.
    eexists. split; [reflexivity|]. apply categoriesAligned_saved. split.
    + set (c := negb _ && _).
      destruct (aligned_drop s t oldCategory c Hd Has Hat) as (Hd' & Has' & Hat').
      destruct (aligned_insert _ _ newCategory (VArr items)
                  (js_or skillType (VStr "personal")) Hd' Has' Hat')
        as (? & ? & ?); [done|apply truthy_js_or_personal|].
      by apply alignedPair_set.
    + by repeat apply alignedPair_other.
  - unfold removeSkillCategory. category_call Hs Ht.
    rewrite !deleteIfSet_aligned by done. rewrite Hd. category_call Hs Ht.
    eexists. split; [reflexivity|]. apply categoriesAligned_saved. split.
    + destruct (aligned_drop s t category (bool_decide (category ∈ dom t)) Hd Has Hat)
        as (? & ? & ?).
      by apply alignedPair_set.
    + by repeat apply alignedPair_other.
Qed.

Lemma profile_call_aligned st now c :
  categoriesAligned (loadCvData st) ->
  exists st', runProfileCall st now c = Ok st' /\ categoriesAligned (loadCvData st').
Proof.
  intros Hinv. pose proof Hinv as [Hsk Hin].
  pose proof Hin as (s & t & Hs & Ht & Hd & Has & Hat).
  destruct c as [n item | n index item | n index | section index direction | c
                | category items interestType
                | oldCategory newCategory items interestType | category];
    cbn [runProfileCall].
  - eexists. split; [reflexivity|]. unfold addToSection.
    destruct (isArray _); destruct (field _ (sectionName n));
      apply categoriesAligned_saved; rewrite ?insert_insert_eq;
      try done; by repeat apply categoriesAligned_ordered.
  - eexists. split; [reflexivity|]. unfold updateInSection.
    destruct (field _ (sectionName n)); try destruct (_ && _);
      apply categoriesAligned_saved; try done; by apply categoriesAligned_ordered.
  - eexists. split; [reflexivity|]. unfold removeFromSection.
    destruct (field _ (sectionName n)); try destruct (_ && _);
      apply categoriesAligned_saved; try done; by apply categoriesAligned_ordered.
  - eexists. split; [reflexivity|]. unfold moveInSection.
    destruct (field (loadCvData st) section) as [| | | | |l|] eqn:Hl; try done.
    destruct (_ || _); [done|].
    apply categoriesAligned_saved. by eapply categoriesAligned_list_section.
  - by apply skill_call_aligned.
  - unfold addInterestCategory. category_call Hs Ht.
    eexists. split; [reflexivity|]. apply categoriesAligned_saved. split.
    + by repeat apply alignedPair_other.
    + destruct (aligned_insert s t category (VArr items)
                  (js_or interestType (VStr "personal")) Hd Has Hat)
        as (? & ? & ?); [done|apply truthy_js_or_personal|].
      by apply alignedPair_set.
  - unfold editInterestCategory. category_call Hs Ht.
    rewrite !deleteIfSet_aligned by done. rewrite Hd. simpl.
    eexists. split; [reflexivity|]. apply categoriesAligned_saved. split.
    + by repeat apply alignedPair_other.
    + set (c := negb _ && _).
      destruct (aligned_drop s t oldCategory c Hd Has Hat) as (Hd' & Has' & Hat').
      destruct (aligned_insert _ _ newCategory (VArr items)
                  (js_or interestType (VStr "personal")) Hd' Has' Hat')
        as (? & ? & ?); [done|apply truthy_js_or_personal|].
      by apply alignedPair_set.
  - unfold removeInterestCategory. category_call Hs Ht.
    rewrite !deleteIfSet_aligned by done. rewrite Hd. category_call Hs Ht.
    eexists. split; [reflexivity|]. apply categoriesAligned_saved. split.
    + by repeat apply alignedPair_other.
    + destruct (aligned_drop s t category (bool_decide (category ∈ dom t)) Hd Has Hat)
        as (? & ? & ?).
      by apply alignedPair_set.
Qed.

(** X14.  From an empty collection, any sequence of calls to the
    repository (items added, updated, removed and moved in the list sections,
    skill and interest categories added, edited and removed) succeeds, and
    afterwards [skills] and [skillTypes] are maps over the same categories,
    and so are [interests] and [interestTypes]. *)
Theorem categories_stay_aligned calls :
  exists st', runProfileCalls empty_store calls = Ok st'
              /\ categoriesAligned (loadCvData st').
Proof.
  assert (Hgen : forall st, categoriesAligned (loadCvData st) ->
            exists st', runProfileCalls st calls = Ok st'
                        /\ categoriesAligned (loadCvData st')).
  { induction calls as [|[now c] rest IH]; intros st Hst; simpl.
    - by exists st.
    - destruct (profile_call_aligned st now c Hst) as (st1 & -> & Hst1). simpl.
      by apply IH. }
  apply Hgen, categoriesAligned_default.
Qed.




End CategoryAlignment.

(** ** The page configuration *)

Section PageDocuments.
Import CvPageConfig PageBuilder PageBuilderViews.

Lemma js_or_isObject v d : isObject v = true -> js_or v d = v.
Proof. by destruct v. Qed.

Lemma null_or_object_carried v :
  (v = VNull \/ exists o, v = VObj o) -> js_or (js_or v VNull) VNull = v.
Proof. by intros [-> | [o ->]]. Qed.

Lemma js_or_null_idem a : js_or (js_or a VNull) VNull = js_or a VNull.
Proof. unfold js_or. by destruct (truthy a) eqn:Ha; [rewrite Ha|]. Qed.

Lemma find_in_catalog (f : Preset -> bool) preset :
  find f getCvPresets = Some preset -> In preset getCvPresets.
Proof. intros H. by apply find_some in H as [? _]. Qed.

Lemma page_document_fields (l h s w f i u : value) :
  let doc : obj :=
    {[ "_id" := VStr "cv-page"; "layout" := l; "hero" := h; "sections" := s;
       "sidebar" := w; "footer" := f; "identity" := i; "updatedAt" := u ]} in
  field doc "layout" = l /\ field doc "hero" = h /\ field doc "sections" = s
  /\ field doc "sidebar" = w /\ field doc "footer" = f /\ field doc "identity" = i
  /\ field doc "updatedAt" = u.
Proof. repeat split. Qed.

Lemma types_of_null_entry entries :
  VNull ∈ entries \/ VUndefined ∈ entries ->
  types_of (VArr entries) = Throw TypeError.
Proof.
  unfold types_of. rewrite js_or_list.
  induction entries as [|e entries IH]; intros Hin.
  - destruct Hin as [Hin|Hin]; by apply elem_of_nil in Hin.
  - cbn [mapM]. destruct e as [| |b|n|s|l|o]; try done;
      (cbn [get_prop mbind result_bind]; rewrite IH; [done|];
       destruct Hin as [Hin|Hin]; apply elem_of_cons in Hin as [Hin|Hin];
       try discriminate Hin; auto).
Qed.

Lemma detectActivePreset_malformed_sections config presets p e :
  p ∈ presets -> field config "layout" = VStr (layout p) ->
  types_of (field config "sections") = Throw e ->
  detectActivePreset config presets = Throw e.
Proof.
  intros Hin Hl Hthrow. induction presets as [|q rest IH]; [by inversion Hin|].
  simpl. rewrite Hthrow.
  destruct (strict_eq_str (field config "layout") (layout q)) eqn:Heq; simpl; [done|].
  apply IH. apply elem_of_cons in Hin as [<-|Hin]; [|done].
  rewrite Hl in Heq. simpl in Heq. by rewrite String.eqb_refl in Heq.
Qed.

Lemma social_fold entries : forall acc,
  Forall socialLink acc ->
  Forall socialLink
    (fold_left
      (fun (social : list value) entry =>
         if negb (truthy entry)
            || (negb (truthy (prop entry "name")) && negb (truthy (prop entry "url")))
         then social
         else (social ++ [VObj {[ "name" := js_or (prop entry "name") (VStr "");
                                  "url" := js_or (prop entry "url") (VStr "");
                                  "rel" := js_or (prop entry "rel") (VStr "me");
                                  "icon" := js_or (prop entry "icon") (VStr "") ]}])%list)
      entries acc).
Proof.
  induction entries as [|e entries IH]; intros acc Hacc; [done|].
  cbn [fold_left]. apply IH.
  destruct (truthy e); cbn [negb orb]; [|done].
  destruct (truthy (prop e "name")) eqn:Hn; cbn [negb andb].
  - apply Forall_app. split; [done|]. constructor; [|constructor].
    eexists. split; [reflexivity|]. repeat split.
    + left. rewrite field_lookup. simplify_map_eq. unfold js_or. by rewrite Hn.
    + rewrite field_lookup. simplify_map_eq. by apply truthy_js_or.
  - destruct (truthy (prop e "url")) eqn:Hu; cbn [negb]; [|done].
    apply Forall_app. split; [done|]. constructor; [|constructor].
    eexists. split; [reflexivity|]. repeat split.
    + right. rewrite field_lookup. simplify_map_eq. unfold js_or. by rewrite Hu.
    + rewrite field_lookup. simplify_map_eq. by apply truthy_js_or.
Qed.

(** X16.  Saving a page configuration that [saveConfig] wrote changes
    nothing but its timestamp. *)
Theorem saveConfig_resave st now t0 config :
  snd (saveConfig st now (configDocument t0 config))
  = <["updatedAt" := VStr now]> (configDocument t0 config).
Proof.
  cbn [saveConfig snd]. unfold configDocument at 1. rewrite !field_lookup.
  unfold configDocument. simplify_map_eq. rewrite !js_or_idem by done.
  rewrite js_or_null_idem. apply map_eq. intros k. on_page_keys k.
Qed.


(** X18.  The builder shows a preset as active right after it was applied:
    for a known [presetId], detection on the configuration [applyPreset]
    stored answers that preset, whatever footer and identity were carried
    over; for an unknown one nothing changes. *)
Theorem applied_preset_is_detected cvEndpoint st now r :
  match find (fun p => strict_eq_str (field (body r) "presetId") (id p)) getCvPresets with
  | Some preset =>
      activePresetId (fst (applyPreset cvEndpoint st now r)) = Ok (Some (id preset))
  | None =>
      activePresetId (fst (applyPreset cvEndpoint st now r)) = activePresetId st
  end.
Proof.
  destruct (find _ getCvPresets) as [preset|] eqn:Hfind.
  - rewrite (applyPreset_known _ _ _ _ _ Hfind).
    apply find_in_catalog in Hfind.
    unfold activePresetId, writeConfigFile, getConfig, cvPageConfig.
    cbn [default from_option id].
    rewrite configDocument_literal.
    set (footer := js_or (js_or _ (VArr [])) (VArr [])).
    set (identity := js_or (js_or _ VNull) VNull).
    clearbody footer identity.
    simpl in Hfind. destruct Hfind as [<- | [<- | [<- | []]]]; vm_compute; reflexivity.
  - unfold applyPreset. by rewrite Hfind.
Qed.

(** X19.  Every social link [parseSocialLinks] returns is an object with
    exactly the keys name, url, rel and icon, a name or a url that is not
    blank, and a [rel]: blank rows of the form are dropped. *)
Theorem parseSocialLinks_no_blank_link body :
  Forall socialLink (parseSocialLinks body).
Proof.
  unfold parseSocialLinks. destruct (negb (truthy (field body "social"))); [done|].
  by apply social_fold.
Qed.

(** X20.  A configuration whose layout is the layout of no preset matches
    no preset, whatever its sections and sidebar hold: they are not read. *)
Theorem detectActivePreset_other_layout config presets :
  Forall (fun p => field config "layout" ≠ VStr (layout p)) presets ->
  detectActivePreset config presets = Ok None.
Proof.
  induction 1 as [|p rest Hp _ IH]; [done|]. simpl.
  destruct (strict_eq_str (field config "layout") (layout p)) eqn:Heq; [|done].
  by apply strict_eq_str_spec in Heq.
Qed.

Lemma detectActivePreset_other_layout_witness :
  detectActivePreset
    {[ "layout" := VStr "full-width-hero"; "sections" := VArr [VNull] ]} getCvPresets
  = Ok None.
Proof.
  apply (detectActivePreset_other_layout
           {[ "layout" := VStr "full-width-hero"; "sections" := VArr [VNull] ]}
           getCvPresets).
  repeat (apply Forall_cons; split; [intros H; vm_compute in H; discriminate H|]).
  apply Forall_nil_2.
Defined.

End PageDocuments.

Section PageRequests.
Import CvPageConfig PageBuilder PageBuilderViews.

Variable JSON_parse : string -> result value.
Variable cvEndpoint : string.

Lemma identity_after st :
  pageShape st ->
  js_or (js_or (current (getConfig st) "identity") VNull) VNull = VNull
  \/ exists o, js_or (js_or (current (getConfig st) "identity") VNull) VNull = VObj o.
Proof.
  unfold pageShape, getConfig, current. destruct (cvPageConfig st) as [doc|]; [|by left].
  intros (_ & _ & _ & _ & _ & Hid). rewrite (null_or_object_carried _ Hid).
  destruct Hid as [-> | [o ->]]; [by left|right; by exists o].
Qed.

Lemma runPageCall_pageShape st now c :
  pageShape st -> pageShape (runPageCall JSON_parse cvEndpoint st now c).
Proof.
  intros Hst. destruct c as [r|r|r]; unfold runPageCall.
  - unfold save.
    destruct (parseIfString JSON_parse (field (body r) "hero")) as [h|]; simpl; [|done].
    destruct (parseIfString JSON_parse (field (body r) "sections")) as [s|]; simpl; [|done].
    destruct (parseIfString JSON_parse (field (body r) "sidebar")) as [w|]; simpl; [|done].
    destruct (parseIfString JSON_parse (field (body r) "footer")) as [f|]; simpl; [|done].
    unfold pageShape. simpl. rewrite configDocument_literal.
    rewrite !field_lookup. simplify_map_eq.
    repeat split.
    + rewrite isValidLayout_kept; apply coerceLayout_valid.
    + by destruct h.
    + by destruct (isArray s) eqn:Hs; [rewrite (js_or_array _ _ Hs)|].
    + by destruct (isArray w) eqn:Hw; [rewrite (js_or_array _ _ Hw)|].
    + by destruct (isArray f) eqn:Hf; [rewrite (js_or_array _ _ Hf)|].
    + by apply identity_after.
  - destruct (find (fun p => strict_eq_str (field (body r) "presetId") (id p))
                getCvPresets) as [preset|] eqn:Hfind.
    + rewrite (applyPreset_known _ _ _ _ _ Hfind).
      apply find_some in Hfind as [Hin _]. apply catalog_layout_valid in Hin.
      unfold pageShape, writeConfigFile, cvPageConfig.
      rewrite configDocument_literal. rewrite !field_lookup. simplify_map_eq.
      rewrite (isValidLayout_kept _ Hin). repeat split; try done.
      * unfold pageShape, getConfig, current in *.
        destruct (cvPageConfig st) as [doc|]; [|done].
        destruct Hst as (_ & _ & _ & _ & Hf & _). by rewrite !(js_or_array _ _ Hf).
      * by apply identity_after.
    + unfold applyPreset. by rewrite Hfind.
  - unfold saveIdentity, pageShape. simpl. rewrite configDocument_literal.
    rewrite !field_lookup. simplify_map_eq.
    unfold pageShape, getConfig, current in *.
    destruct (cvPageConfig st) as [doc|]; simpl.
    + destruct Hst as (Hl & Hh & Hs & Hw & Hf & _).
      rewrite !(isValidLayout_kept _ Hl), !(js_or_isObject _ _ Hh),
        !(js_or_array _ _ Hs), !(js_or_array _ _ Hw), !(js_or_array _ _ Hf).
      repeat split; try done. right. eauto.
    + repeat split; try done. right. eauto.
Qed.

(** X21.  From an empty collection, after any sequence of builder saves,
    preset applications and identity saves, the stored page configuration
    is typed as the data model has it: a layout of the enum, an object for
    the hero, lists for sections, sidebar and footer, and null or an object
    for the identity. *)
Theorem page_configuration_well_typed calls :
  pageShape (runPageCalls JSON_parse cvEndpoint empty_store calls).
Proof.
  assert (Hgen : forall st, pageShape st ->
            pageShape (runPageCalls JSON_parse cvEndpoint st calls)).
  { induction calls as [|[now c] calls IH]; intros st Hst; [done|].
    apply IH. by apply runPageCall_pageShape. }
  by apply Hgen.
Qed.

(** X22.  The builder's [save] checks that [sections] is a list, not what
    the list holds: a list with a [null] or [undefined] entry is stored as it
    is, and, unless the layout is "full-width-hero", which no preset has,
    preset detection then throws a TypeError on the stored configuration, so
    the builder page answers with the error page. *)
Theorem saved_null_section_breaks_builder st now r entries :
  field (body r) "sections" = VArr entries ->
  VNull ∈ entries \/ VUndefined ∈ entries ->
  bodyParses JSON_parse r = true ->
  field (body r) "layout" ≠ VStr "full-width-hero" ->
  exists doc,
    cvPageConfig (fst (save JSON_parse cvEndpoint st now r)) = Some doc
    /\ field doc "sections" = VArr entries
    /\ activePresetId (fst (save JSON_parse cvEndpoint st now r)) = Throw TypeError.
Proof.
  intros Hsec Hnull Hparses Hlayout.
  unfold bodyParses, parses in Hparses. unfold save. rewrite Hsec in *.
  destruct (parseIfString JSON_parse (field (body r) "hero")) as [h|]; [|done].
  cbn [parseIfString] in *.
  destruct (parseIfString JSON_parse (field (body r) "sidebar")) as [w|]; [|done].
  destruct (parseIfString JSON_parse (field (body r) "footer")) as [f|]; [|done].
  cbn [mbind result_bind isArray fst saveConfig writeConfigFile cvPageConfig].
  rewrite configDocument_literal. fold (coerceLayout (field (body r) "layout")).
  match goal with
  | |- context [{[ "_id" := _; "layout" := ?l; "hero" := ?h'; "sections" := ?s;
                   "sidebar" := ?w'; "footer" := ?f'; "identity" := ?i;
                   "updatedAt" := ?u ]}] =>
      destruct (page_document_fields l h' s w' f' i u)
        as (Hl' & _ & Hs' & _);
      set (doc := ({[ "_id" := VStr "cv-page"; "layout" := l; "hero" := h';
                      "sections" := s; "sidebar" := w'; "footer" := f';
                      "identity" := i; "updatedAt" := u ]} : obj)) in *
  end.
  exists doc. split; [reflexivity|]. split; [by rewrite Hs'|].
  unfold activePresetId, getConfig. cbn [cvPageConfig default from_option id].
  rewrite js_or_list in Hs'.
  assert (Hthrow : types_of (field doc "sections") = Throw TypeError)
    by (rewrite Hs'; by apply types_of_null_entry).
  assert (Hvalid := coerceLayout_valid (field (body r) "layout")).
  rewrite (isValidLayout_kept _ Hvalid) in Hl'.
  apply isValidLayout_spec in Hvalid as [Hv | [Hv | Hv]].
  - eapply (detectActivePreset_malformed_sections doc getCvPresets); [| |exact Hthrow].
    + apply elem_of_cons. left. reflexivity.
    + by rewrite Hl', Hv.
  - eapply (detectActivePreset_malformed_sections doc getCvPresets); [| |exact Hthrow].
    + apply elem_of_cons. right. apply elem_of_cons. left. reflexivity.
    + by rewrite Hl', Hv.
  - exfalso. apply Hlayout. unfold coerceLayout in Hv.
    destruct (isValidLayout (field (body r) "layout")); [done|discriminate].
Qed.

(** X23.  [saveIdentity] on a well-typed stored configuration replaces the
    identity by the one built from the form, with the social links
    [parseSocialLinks] kept, stamps the time, and carries layout, hero,
    sections, sidebar and footer over unchanged; with no stored
    configuration these five take the values "single-column", the default
    hero and three empty lists.  The profile document is not touched. *)
Theorem saveIdentity_frame st now r :
  pageShape st ->
  exists doc' identity,
    cvPageConfig (fst (saveIdentity cvEndpoint st now r)) = Some doc'
    /\ field doc' "identity" = VObj identity
    /\ identity !! "social" = Some (VArr (parseSocialLinks (body r)))
    /\ field doc' "updatedAt" = VStr now
    /\ cvData (fst (saveIdentity cvEndpoint st now r)) = cvData st
    /\ match cvPageConfig st with
       | Some doc =>
           field doc' "layout" = field doc "layout"
           /\ field doc' "hero" = field doc "hero"
           /\ field doc' "sections" = field doc "sections"
           /\ field doc' "sidebar" = field doc "sidebar"
           /\ field doc' "footer" = field doc "footer"
       | None =>
           field doc' "layout" = VStr "single-column"
           /\ field doc' "hero" = defaultHero
           /\ field doc' "sections" = VArr []
           /\ field doc' "sidebar" = VArr []
           /\ field doc' "footer" = VArr []
       end.
Proof.
  intros Hst. unfold saveIdentity. cbn [fst saveConfig writeConfigFile cvPageConfig cvData].
  rewrite configDocument_literal, js_or_object.
  match goal with
  | |- context [{[ "_id" := _; "layout" := ?l; "hero" := ?h; "sections" := ?s;
                   "sidebar" := ?w; "footer" := ?f; "identity" := VObj ?i;
                   "updatedAt" := ?u ]}] =>
      destruct (page_document_fields l h s w f (VObj i) u)
        as (Hl' & Hh' & Hs' & Hw' & Hf' & Hi' & Hu');
      exists {[ "_id" := VStr "cv-page"; "layout" := l; "hero" := h; "sections" := s;
                "sidebar" := w; "footer" := f; "identity" := VObj i;
                "updatedAt" := u ]}, i
  end.
  split; [reflexivity|]. split; [exact Hi'|]. split; [reflexivity|].
  split; [exact Hu'|]. split; [reflexivity|].
  rewrite Hl', Hh', Hs', Hw', Hf'.
  unfold pageShape, getConfig, current in *.
  destruct (cvPageConfig st) as [doc|]; [|done].
  destruct Hst as (Hl & Hh & Hs & Hw & Hf & _).
  by rewrite !(isValidLayout_kept _ Hl), !(js_or_isObject _ _ Hh),
    !(js_or_array _ _ Hs), !(js_or_array _ _ Hw), !(js_or_array _ _ Hf).
Qed.

(** X24.  Saving the identity before any page configuration exists empties
    the page: the builder showed the default configuration, which is the
    "professional-cv" preset with its six sections, and after [saveIdentity]
    the stored configuration has no sections and matches no preset. *)
Theorem saveIdentity_without_config st now r :
  getConfig st = None ->
  activePresetId st = Ok (Some "professional-cv")
  /\ (exists shown,
        field (default getDefaultConfig (getConfig st)) "sections" = VArr shown
        /\ length shown = 6%nat)
  /\ (exists doc',
        cvPageConfig (fst (saveIdentity cvEndpoint st now r)) = Some doc'
        /\ field doc' "sections" = VArr [])
  /\ activePresetId (fst (saveIdentity cvEndpoint st now r)) = Ok None.
Proof.
  intros Hnone. unfold activePresetId. rewrite Hnone.
  split; [vm_compute; reflexivity|].
  split; [eexists; split; vm_compute; reflexivity|].
  unfold saveIdentity. rewrite Hnone.
  cbn [fst saveConfig writeConfigFile cvPageConfig getConfig default from_option].
  rewrite configDocument_literal.
  set (identity := js_or (VObj _) VNull). clearbody identity.
  split; [eexists; split; [reflexivity|]|]; vm_compute; reflexivity.
Qed.

End PageRequests.

Lemma saved_null_section_breaks_builder_witness :
  exists doc,
    cvPageConfig (fst (PageBuilder.save (fun _ => Throw SyntaxError) "/cv" empty_store
                         "t1" nullSection)) = Some doc
    /\ field doc "sections" = VArr [VNull]
    /\ PageBuilderViews.activePresetId
         (fst (PageBuilder.save (fun _ => Throw SyntaxError) "/cv" empty_store "t1"
                 nullSection))
       = Throw TypeError.
Proof.
  apply (saved_null_section_breaks_builder (fun _ => Throw SyntaxError) "/cv"
           empty_store "t1" nullSection [VNull]).
  - reflexivity.
  - left. apply elem_of_cons. by left.
  - reflexivity.
  - intros H. vm_compute in H. discriminate H.
Defined.

Lemma configuredStore_pageShape : pageShape configuredStore.
Proof.
  unfold pageShape, configuredStore. cbn [cvPageConfig].
  repeat split; try (vm_compute; reflexivity).
  right. eexists. vm_compute. reflexivity.
Qed.

Lemma saveIdentity_frame_witness :
  let r := {| PageBuilder.body := {[ "identity-name" := VStr "Ada" ]};
              PageBuilder.accept := None |} in
  exists doc' identity,
    cvPageConfig (fst (PageBuilder.saveIdentity "/cv" configuredStore "t1" r)) = Some doc'
    /\ field doc' "identity" = VObj identity
    /\ identity !! "social" = Some (VArr (PageBuilder.parseSocialLinks (PageBuilder.body r)))
    /\ field doc' "updatedAt" = VStr "t1"
    /\ cvData (fst (PageBuilder.saveIdentity "/cv" configuredStore "t1" r))
       = cvData configuredStore
    /\ match cvPageConfig configuredStore with
       | Some doc =>
           field doc' "layout" = field doc "layout"
           /\ field doc' "hero" = field doc "hero"
           /\ field doc' "sections" = field doc "sections"
           /\ field doc' "sidebar" = field doc "sidebar"
           /\ field doc' "footer" = field doc "footer"
       | None =>
           field doc' "layout" = VStr "single-column"
           /\ field doc' "hero" = CvPageConfig.defaultHero
           /\ field doc' "sections" = VArr []
           /\ field doc' "sidebar" = VArr []
           /\ field doc' "footer" = VArr []
       end.
Proof.
  apply (saveIdentity_frame "/cv" configuredStore "t1").
  exact configuredStore_pageShape.
Defined.

Lemma saveIdentity_without_config_witness :
  PageBuilderViews.activePresetId
    (fst (PageBuilder.saveIdentity "/cv" empty_store "t1"
            {| PageBuilder.body := {[ "identity-name" := VStr "Ada" ]};
               PageBuilder.accept := None |}))
  = Ok None.
Proof.
  apply (saveIdentity_without_config "/cv" empty_store "t1"
           {| PageBuilder.body := {[ "identity-name" := VStr "Ada" ]};
              PageBuilder.accept := None |}).
  reflexivity.
Defined.

(** ** The dashboard's category forms *)

Section CommaLists.
Import Dashboard.

Lemma split_nonempty sep s : split sep s <> [].
Proof.
  destruct s as [|c s]; simpl; [done|].
  destruct (Ascii.eqb c sep); [done|]. by destruct (split sep s).
Qed.

Lemma split_comma_pieces s : Forall (fun x => hasComma x = false) (split "," s).
Proof.
  induction s as [|c s IH]; simpl; [by repeat constructor|].
  pose proof (split_nonempty "," s) as Hne.
  destruct (Ascii.eqb_spec c ",") as [->|Hc].
  - by constructor.
  - destruct (split "," s) as [|x xs]; [done|].
    apply Forall_cons in IH as [Hx Hxs]. constructor; [|done].
    simpl. rewrite Hx. by rewrite (proj2 (Ascii.eqb_neq c ",") Hc).
Qed.

Lemma split_app_comma s tail :
  hasComma s = false -> split "," (s ++ String "," tail) = s :: split "," tail.
Proof.
  induction s as [|c s IH]; [done|]. simpl.
  intros [Hc Hs]%orb_false_iff. by rewrite Hc, (IH Hs).
Qed.

Lemma split_clean_one s : hasComma s = false -> split "," s = [s].
Proof.
  induction s as [|c s IH]; [done|]. simpl.
  intros [Hc Hs]%orb_false_iff. by rewrite Hc, (IH Hs).
Qed.

Lemma split_concat_clean items :
  items <> [] -> Forall (fun s => hasComma s = false) items ->
  split "," (String.concat "," items) = items.
Proof.
  induction items as [|s rest IH]; [done|]. intros _ [Hs Hrest]%Forall_cons.
  destruct rest as [|y ys]; [by apply split_clean_one|].
  change (String.concat "," (s :: y :: ys))
    with (s ++ String "," (String.concat "," (y :: ys)))%string.
  rewrite split_app_comma by done. by rewrite IH.
Qed.

Variable trim : string -> string.

(** X25.  [parseCommaList] answers the empty list for a falsy value and
    throws, a TypeError, exactly for a truthy value that is no string; for a
    string, every item it returns is a string that is not empty and, as long
    as trimming adds no comma, holds no comma. *)
Theorem parseCommaList_items v :
  (forall s, hasComma s = false -> hasComma (trim s) = false) ->
  match parseCommaList trim v with
  | Ok items =>
      (truthy v = false /\ items = [] \/ typeof v = "string")
      /\ Forall (fun i => exists s, i = VStr s /\ cleanType s) items
  | Throw e => e = TypeError /\ truthy v = true /\ typeof v <> "string"
  end.
Proof.
  intros Htrim. unfold parseCommaList, splitTrimmed.
  destruct (truthy v) eqn:Hv; cbn [negb]; cbv iota; [|split; [by left|by constructor]].
  destruct v as [| | | |s| |]; try done.
  split; [by right|].
  apply Forall_map, Forall_forall. intros x Hx.
  apply list_elem_of_In, filter_In in Hx as [Hx Hne].
  apply in_map_iff in Hx as (piece & <- & Hpiece).
  exists (trim piece). split; [done|]. split.
  - intros Heq. rewrite Heq in Hne. done.
  - apply Htrim. pose proof (split_comma_pieces s) as Hall.
    rewrite Forall_forall in Hall. by apply Hall, list_elem_of_In.
Qed.

(** X26.  [parseCommaList] undoes a comma join: for items that are not
    empty, hold no comma and are left alone by trimming,
    [parseCommaList(items.join(","))] is [items]. *)
Theorem parseCommaList_join items :
  Forall cleanType items -> Forall (fun s => trim s = s) items ->
  parseCommaList trim (VStr (join "," (map VStr items))) = Ok (map VStr items).
Proof.
  intros Hclean Hfixed. unfold parseCommaList, splitTrimmed, join.
  rewrite map_map. cbn [join_item to_string]. rewrite map_id.
  destruct items as [|s rest]; [done|].
  assert (Hne : String.concat "," (s :: rest) <> "").
  { apply Forall_cons in Hclean as [[Hs _] _]. destruct s as [|c s]; [done|].
    destruct rest; discriminate. }
  cbn [truthy]. apply String.eqb_neq in Hne. rewrite Hne. cbn [negb].
  rewrite split_concat_clean; [|done|].
  - f_equal. f_equal. clear Hne. set (l := s :: rest) in *. clearbody l.
    induction l as [|x l IH]; [done|].
    apply Forall_cons in Hclean as [[Hx _] Hclean].
    apply Forall_cons in Hfixed as [Hfx Hfixed].
    cbn [map List.filter]. rewrite Hfx.
    apply String.eqb_neq in Hx. rewrite Hx. cbn [negb]. f_equal. by apply IH.
  - eapply Forall_impl; [exact Hclean|]. by intros x [_ Hx].
Qed.

End CommaLists.

Lemma parseCommaList_items_witness :
  Forall (fun i => exists s, i = VStr s /\ cleanType s) [VStr "git"; VStr "make"].
Proof.
  apply (parseCommaList_items (fun s => s) (VStr "git,,make")).
  intros s Hs. exact Hs.
Defined.

Lemma parseCommaList_join_witness :
  Dashboard.parseCommaList (fun s => s) (VStr (join "," (map VStr ["git"; "make"])))
  = Ok (map VStr ["git"; "make"]).
Proof.
  apply (parseCommaList_join (fun s => s) ["git"; "make"]).
  - repeat (apply Forall_cons; split; [split; [discriminate|reflexivity]|]).
    apply Forall_nil_2.
  - repeat (apply Forall_cons; split; [reflexivity|]). apply Forall_nil_2.
Defined.

Section CategoryForms.
Import Cv.

Variable trim : string -> string.



End CategoryForms.

(** ** The bulk form *)

Section BulkForm.
Import Cv.

Variable trim : string -> string.
Variable JSON_parse : string -> result value.

Lemma parseCommaList_string s :
  exists l, Dashboard.parseCommaList trim (VStr s) = Ok l.
Proof.
  unfold Dashboard.parseCommaList, Dashboard.splitTrimmed.
  destruct (negb (truthy (VStr s))); eauto.
Qed.

Lemma categoryLists_step (acc : obj) category items :
  (acc' ← Ok acc;
   match items with
   | VStr _ =>
       l ← Dashboard.parseCommaList trim items; Ok (<[category := VArr l]> acc')
   | VArr _ => Ok (<[category := items]> acc')
   | _ => Ok acc'
   end)
  = Ok (match keptItems trim items with
        | Some kept => <[category := kept]> acc
        | None => acc
        end).
Proof.
  cbn [mbind result_bind]. destruct items as [| |b|n|s|l|o]; try done.
  unfold keptItems. by destruct (parseCommaList_string s) as [l ->].
Qed.

Lemma categoryLists_fold entries : forall acc : obj,
  NoDup (entries.*1) ->
  exists m : obj,
    fold_left
      (fun (lists : result obj) '(category, items) =>
         acc ← lists;
         match items with
         | VStr _ =>
             l ← Dashboard.parseCommaList trim items; Ok (<[category := VArr l]> acc)
         | VArr _ => Ok (<[category := items]> acc)
         | _ => Ok acc
         end)
      entries (Ok acc) = Ok m
    /\ forall k,
         m !! k = match (list_to_map entries : obj) !! k ≫= keptItems trim with
                  | Some kept => Some kept
                  | None => acc !! k
                  end.
Proof.
  induction entries as [|[k0 v0] rest IH]; intros acc Hnodup.
  - exists acc. split; [done|]. intros k. simpl. by rewrite lookup_empty.
  - cbn [fold_left]. rewrite categoryLists_step.
    rewrite fmap_cons, NoDup_cons in Hnodup. destruct Hnodup as [Hk0 Hrest].
    cbn [fst] in Hk0.
    destruct (IH (match keptItems trim v0 with
                  | Some kept => <[k0 := kept]> acc
                  | None => acc
                  end) Hrest) as (m & -> & Hm).
    exists m. split; [done|]. intros k. rewrite Hm.
    change (list_to_map ((k0, v0) :: rest) : obj)
      with (<[k0 := v0]> (list_to_map rest : obj)).
    destruct (decide (k = k0)) as [->|Hne].
    + rewrite (proj1 (not_elem_of_list_to_map rest k0) Hk0).
      rewrite lookup_insert_eq. cbn [mbind option_bind].
      destruct (keptItems trim v0); [by rewrite lookup_insert_eq|done].
    + rewrite lookup_insert_ne by done.
      destruct (list_to_map rest !! k ≫= keptItems trim); [done|].
      destruct (keptItems trim v0); [by rewrite lookup_insert_ne|done].
Qed.

Lemma categoryLists_object (o : obj) :
  Dashboard.categoryLists trim (VObj o) = Ok (omap (keptItems trim) o).
Proof.
  unfold Dashboard.categoryLists. cbn [Dashboard.object_entries].
  destruct (categoryLists_fold (map_to_list o) ∅ (NoDup_fst_map_to_list o))
    as (m & -> & Hm).
  f_equal. apply map_eq. intros k.
  rewrite Hm, list_to_map_to_list, lookup_omap, lookup_empty.
  by destruct (o !! k ≫= keptItems trim).
Qed.

Lemma keptItems_list items kept : keptItems trim items = Some kept -> isArray kept = true.
Proof.
  destruct items as [| |b|n|s|l|o]; try done; simpl.
  - destruct (Dashboard.parseCommaList trim (VStr s)); [|done]. by intros [= <-].
  - by intros [= <-].
Qed.

Lemma categoryLists_lists v :
  exists m, Dashboard.categoryLists trim v = Ok m /\ allLists m.
Proof.
  unfold Dashboard.categoryLists.
  assert (Hgen : forall entries (acc : obj), allLists acc ->
    exists m,
      fold_left
        (fun (lists : result obj) '(category, items) =>
           acc ← lists;
           match items with
           | VStr _ =>
               l ← Dashboard.parseCommaList trim items; Ok (<[category := VArr l]> acc)
           | VArr _ => Ok (<[category := items]> acc)
           | _ => Ok acc
           end)
        entries (Ok acc) = Ok m
      /\ allLists m).
  { induction entries as [|[k0 v0] rest IH]; intros acc Hacc; [by exists acc|].
    cbn [fold_left]. rewrite categoryLists_step. apply IH.
    destruct (keptItems trim v0) as [kept|] eqn:Hkept; [|done].
    apply map_Forall_insert_2; [|done]. by eapply keptItems_list. }
  apply Hgen, map_Forall_empty.
Qed.

Lemma parsed_categories (v : value) :
  exists m,
    (if negb (truthy v) || negb (String.eqb (typeof v) "object")
     then Ok ∅ else Dashboard.categoryLists trim v) = Ok m
    /\ allLists m.
Proof.
  destruct (negb (truthy v) || negb (String.eqb (typeof v) "object")).
  - exists ∅. split; [done|apply map_Forall_empty].
  - apply categoryLists_lists.
Qed.

Lemma bulk_data_fields (e p s t d l i it : value) :
  let data : obj :=
    {[ "experience" := e; "projects" := p; "skills" := s; "skillTypes" := t;
       "education" := d; "languages" := l; "interests" := i; "interestTypes" := it ]} in
  field data "experience" = e /\ field data "projects" = p /\ field data "skills" = s
  /\ field data "skillTypes" = t /\ field data "education" = d
  /\ field data "languages" = l /\ field data "interests" = i
  /\ field data "interestTypes" = it.
Proof. repeat split. Qed.

Lemma bulk_save_stores st now body :
  exists skills interests,
    Dashboard.parseSkillsField trim body = Ok skills
    /\ Dashboard.parseInterestsField trim body = Ok interests
    /\ allLists skills /\ allLists interests
    /\ Dashboard.save trim JSON_parse st now body
       = (fst (saveCvData st now
            {[ "experience" := VArr (Dashboard.parseArrayField JSON_parse body "experience");
               "projects" := VArr (Dashboard.parseArrayField JSON_parse body "projects");
               "skills" := VObj skills;
               "skillTypes" := Dashboard.parseSkillTypesField body;
               "education" := VArr (Dashboard.parseArrayField JSON_parse body "education");
               "languages" := VArr (Dashboard.parseArrayField JSON_parse body "languages");
               "interests" := VObj interests;
               "interestTypes" := Dashboard.parseInterestTypesField body ]}),
          Dashboard.Saved).
Proof.
  destruct (parsed_categories (field body "skills")) as (skills & Hs & Hsl).
  destruct (parsed_categories (field body "interests")) as (interests & Hi & Hil).
  exists skills, interests. unfold Dashboard.save.
  unfold Dashboard.parseSkillsField, Dashboard.parseInterestsField.
  cbv zeta. rewrite Hs, Hi. done.
Qed.

(** X28.  The bulk form never fails, whatever its body holds, and what it
    stores is typed: experience, projects, education and languages are
    lists, skills and interests are maps from categories to lists. *)
Theorem bulk_save_shape st now body :
  snd (Dashboard.save trim JSON_parse st now body) = Dashboard.Saved
  /\ bulkShape (fst (Dashboard.save trim JSON_parse st now body)).
Proof.
  destruct (bulk_save_stores st now body)
    as (skills & interests & _ & _ & Hsl & Hil & ->).
  split; [done|]. cbn [fst]. unfold bulkShape.
  rewrite !(proj1 (stored_after_save _ _ _ _)).
  match goal with
  | |- context [cvDocument now ?data] =>
      destruct (cvDocument_categories now data) as (Hsk & _ & Hin & _);
      pose proof (cvDocument_ordered now data) as Hord
  end.
  rewrite Hsk, Hin.
  match goal with
  | |- context [{[ "experience" := ?e; "projects" := ?p; "skills" := ?s;
                   "skillTypes" := ?t; "education" := ?d; "languages" := ?l;
                   "interests" := ?i; "interestTypes" := ?it ]}] =>
      destruct (bulk_data_fields e p s t d l i it)
        as (He & Hp & Hs & Ht & Hd & Hl & Hi & Hit)
  end.
  rewrite Hs, Hi, Hit.
  rewrite (Hord "experience" _ ltac:(apply elem_of_cons; by left) He).
  rewrite (Hord "projects" _
             ltac:(apply elem_of_cons; right; apply elem_of_cons; by left) Hp).
  rewrite (Hord "education" _
             ltac:(do 2 (apply elem_of_cons; right); apply elem_of_cons; by left) Hd).
  rewrite (Hord "languages" _
             ltac:(do 3 (apply elem_of_cons; right); apply elem_of_cons; by left) Hl).
  repeat split; eauto.
Qed.

(** X29.  The bulk form does not align categories and classifiers: a skill
    category sent with a string of items and without a classifier is stored
    in [skills] and not in [skillTypes], so the key sets of the two maps
    differ in the stored profile. *)
Theorem bulk_save_misaligns st now body sk ty category items :
  field body "skills" = VObj sk -> sk !! category = Some (VStr items) ->
  Dashboard.parseSkillTypesField body = VObj ty -> ty !! category = None ->
  exists s',
    stored (fst (Dashboard.save trim JSON_parse st now body)) "skills" = VObj s'
    /\ stored (fst (Dashboard.save trim JSON_parse st now body)) "skillTypes" = VObj ty
    /\ (category ∈ dom s') /\ (category ∉ dom ty)
    /\ ~ categoriesAligned (loadCvData (fst (Dashboard.save trim JSON_parse st now body))).
Proof.
  intros Hsk Hc Hty Hnone.
  destruct (bulk_save_stores st now body)
    as (skills & interests & Hskills & _ & _ & _ & Hsave).
  unfold Dashboard.parseSkillsField in Hskills. rewrite Hsk in Hskills.
  cbn [truthy typeof negb orb String.eqb] in Hskills.
  change (String.eqb "object" "object") with true in Hskills.
  cbn [negb orb] in Hskills.
  rewrite categoryLists_object in Hskills. injection Hskills as <-.
  rewrite Hsave, Hty. cbn [fst].
  assert (Hstored :
    forall k, stored (fst (saveCvData st now
      {[ "experience" := VArr (Dashboard.parseArrayField JSON_parse body "experience");
         "projects" := VArr (Dashboard.parseArrayField JSON_parse body "projects");
         "skills" := VObj (omap (keptItems trim) sk);
         "skillTypes" := VObj ty;
         "education" := VArr (Dashboard.parseArrayField JSON_parse body "education");
         "languages" := VArr (Dashboard.parseArrayField JSON_parse body "languages");
         "interests" := VObj interests;
         "interestTypes" := Dashboard.parseInterestTypesField body ]})) k
    = field (loadCvData (fst (saveCvData st now
      {[ "experience" := VArr (Dashboard.parseArrayField JSON_parse body "experience");
         "projects" := VArr (Dashboard.parseArrayField JSON_parse body "projects");
         "skills" := VObj (omap (keptItems trim) sk);
         "skillTypes" := VObj ty;
         "education" := VArr (Dashboard.parseArrayField JSON_parse body "education");
         "languages" := VArr (Dashboard.parseArrayField JSON_parse body "languages");
         "interests" := VObj interests;
         "interestTypes" := Dashboard.parseInterestTypesField body ]}))) k) by done.
  assert (Hin : category ∈ dom (omap (keptItems trim) sk)).
  { apply elem_of_dom. rewrite lookup_omap, Hc. cbn [mbind option_bind keptItems].
    destruct (parseCommaList_string items) as [l ->]. eauto. }
  assert (Hout : category ∉ dom ty) by (by apply not_elem_of_dom).
  exists (omap (keptItems trim) sk).
  rewrite !(proj1 (stored_after_save _ _ _ _)).
  match goal with
  | |- context [cvDocument now ?data] =>
      destruct (cvDocument_categories now data) as (Hs' & Ht' & _ & _)
  end.
  match type of Hs' with
  | context [{[ "experience" := ?e; "projects" := ?p; "skills" := ?s;
                "skillTypes" := ?t; "education" := ?d; "languages" := ?l;
                "interests" := ?i; "interestTypes" := ?it ]}] =>
      destruct (bulk_data_fields e p s t d l i it) as (_ & _ & Hs & Ht & _)
  end.
  rewrite Hs, js_or_object in Hs'. rewrite Ht, js_or_object in Ht'.
  split; [exact Hs'|]. split; [exact Ht'|].
  split; [done|]. split; [done|].
  intros [(s & t & Hs1 & Ht1 & Hdom & _) _].
  change (loadCvData (fst (saveCvData st now ?data))) with (cvDocument now data)
    in Hs1, Ht1.
  rewrite Hs' in Hs1. rewrite Ht' in Ht1.
  injection Hs1 as <-. injection Ht1 as <-. by rewrite Hdom in Hin.
Qed.

End BulkForm.

Lemma bulk_save_misaligns_witness :
  exists s',
    stored (fst (Dashboard.save (fun s => s) (fun _ => Throw SyntaxError) empty_store
                   "t1" unclassifiedSkill)) "skills" = VObj s'
    /\ stored (fst (Dashboard.save (fun s => s) (fun _ => Throw SyntaxError) empty_store
                      "t1" unclassifiedSkill)) "skillTypes" = VObj ∅
    /\ ("Go" ∈ dom s') /\ ("Go" ∉ dom (∅ : obj))
    /\ ~ categoriesAligned
           (Cv.loadCvData
              (fst (Dashboard.save (fun s => s) (fun _ => Throw SyntaxError) empty_store
                      "t1" unclassifiedSkill))).
Proof.
  apply (bulk_save_misaligns (fun s => s) (fun _ => Throw SyntaxError) empty_store "t1"
           unclassifiedSkill {[ "Go" := VStr "channels,select" ]} ∅ "Go"
           "channels,select").
  - reflexivity.
  - reflexivity.
  - reflexivity.
  - reflexivity.
Defined.
